(** * babel-preset-env: target resolution and requirement decisions

    A shallow embedding of [src/index.js] and the proofs of its
    specification.

    - A JavaScript object used as a map is a [gmap string _] of its own
      properties.  Where the code reads a property of a capability entry
      or of [browserNameMap] under a name it is given, the read also
      finds what a plain object inherits ([constructor], [toString],
      ...): [plain_get].  [Object.keys] enumerates the own properties;
      no statement below depends on the order of the enumeration.
    - [parseInt] gives a double: the integer read, rounded to 53
      significant bits, or an infinity.
    - [browserslist] is taken at its interface, from a query to a list
      of releases; a resolver that rejects the query is outside the
      model.
    - The JSON capability tables, whose key order decides the order of
      the resulting plugin list, are association lists.
    - An exception is a [Throw] of the [result] type, and a callback
      that may throw is run by [filterM].
    - The module-level [hasBeenLogged] latch and the console are a
      [Session] threaded through [buildPreset].
    - What the file imports is a parameter: the runtime and
      [browserslist] ([Host]), the data modules ([Data]), and
      [normalizeOptions]. *)

From Stdlib Require Import Ascii String QArith.
From stdpp Require Import gmap strings list fin_maps.

Local Open Scope string_scope.

(** ** JavaScript numbers

    A number is NaN, an infinity, or a finite value.  Finite values are
    exact rationals: the comparison and the minimum of IEEE doubles are
    those of the rationals they denote.  The two zeros are one value. *)

Inductive number : Type :=
  | NaN
  | NegInf
  | Fin (q : Q)
  | PosInf.

Definition Qltb (x y : Q) : bool := negb (Qle_bool y x).

(** [a < b] on numbers; any comparison with NaN is false. *)
Definition number_lt (a b : number) : bool :=
  match a, b with
  | NaN, _ | _, NaN => false
  | _, NegInf => false
  | NegInf, _ => true
  | PosInf, _ => false
  | Fin _, PosInf => true
  | Fin x, Fin y => Qltb x y
  end.

(** [a >= b] on numbers (not the negation of [<]: false on NaN). *)
Definition number_ge (a b : number) : bool :=
  match a, b with
  | NaN, _ | _, NaN => false
  | _, NegInf => true
  | NegInf, _ => false
  | PosInf, _ => true
  | Fin _, PosInf => false
  | Fin x, Fin y => Qle_bool y x
  end.

(** [Math.min(a, b)]. *)
Definition Math_min (a b : number) : number :=
  match a, b with
  | NaN, _ | _, NaN => NaN
  | _, _ => if number_lt b a then b else a
  end.

Definition isNaN (n : number) : bool :=
  match n with NaN => true | _ => false end.

(** Truthiness of a number: everything but 0 and NaN. *)
Definition number_truthy (n : number) : bool :=
  match n with
  | NaN => false
  | Fin q => negb (Qeq_bool q 0)
  | NegInf | PosInf => true
  end.

Definition of_Z (z : Z) : number := Fin (inject_Z z).

(** The double nearest to an integer, ties to even: the integer itself
    up to 53 significant bits, a multiple of a power of two beyond, and
    an infinity when the rounded magnitude reaches 2^1024. *)
Definition to_double (z : Z) : number :=
  let m := Z.abs z in
  let e := (Z.log2 m - 52)%Z in
  if (e <=? 0)%Z then of_Z z
  else
    let q := Z.shiftr m e in
    let r := Z.land m (Z.ones e) in
    let half := Z.shiftl 1 (e - 1) in
    let q :=
      if (half <? r)%Z || ((r =? half)%Z && Z.odd q) then (q + 1)%Z else q in
    let rounded := Z.shiftl q e in
    if (Z.shiftl 1 1024 <=? rounded)%Z
    then (if (z <? 0)%Z then NegInf else PosInf)
    else of_Z (Z.sgn z * rounded).

(** ** JavaScript values that occur in a target specification *)

Inductive value : Type :=
  | VUndefined
  | VNull
  | VBool (b : bool)
  | VNum (n : number)
  | VStr (s : string)
  | VArr (l : list string).

(** A plain object used as a map from property names to values. *)
Abbreviation object := (gmap string value).

(** One entry of [plugins.json] / [built-ins.json]: environment name to
    the first version that implements the feature. *)
Abbreviation capability := (gmap string number).

Definition truthy (v : value) : bool :=
  match v with
  | VUndefined | VNull => false
  | VBool b => b
  | VNum n => number_truthy n
  | VStr s => negb (String.eqb s "")
  | VArr _ => true
  end.

(** [typeof v === "string"] *)
Definition typeof_string (v : value) : bool :=
  match v with VStr _ => true | _ => false end.

(** [typeof v === "number"] *)
Definition typeof_number (v : value) : bool :=
  match v with VNum _ => true | _ => false end.

(** [v === true] *)
Definition strict_eq_true (v : value) : bool :=
  match v with VBool true => true | _ => false end.

(** [v === s] for a string [s] *)
Definition strict_eq_string (v : value) (s : string) : bool :=
  match v with VStr s' => String.eqb s' s | _ => false end.

(** [o[k]]: a missing property reads as [undefined]. *)
Definition get (o : object) (k : string) : value :=
  default VUndefined (o !! k).

(** [Object.keys(o)] *)
Definition Object_keys {V} (o : gmap string V) : list string :=
  (map_to_list o).*1.

(** *** Inherited properties

    An object literal inherits the properties of [Object.prototype]:
    methods, and under [__proto__] the prototype itself.  They are
    truthy and no numbers; compared with [<], or used as a property
    name, such a value is converted to a string, the text that Node
    gives for it. *)
Definition Object_prototype : list (string * string) :=
  [("constructor", "function Object() { [native code] }");
   ("hasOwnProperty", "function hasOwnProperty() { [native code] }");
   ("isPrototypeOf", "function isPrototypeOf() { [native code] }");
   ("propertyIsEnumerable",
    "function propertyIsEnumerable() { [native code] }");
   ("toLocaleString", "function toLocaleString() { [native code] }");
   ("toString", "function toString() { [native code] }");
   ("valueOf", "function valueOf() { [native code] }");
   ("__defineGetter__", "function __defineGetter__() { [native code] }");
   ("__defineSetter__", "function __defineSetter__() { [native code] }");
   ("__lookupGetter__", "function __lookupGetter__() { [native code] }");
   ("__lookupSetter__", "function __lookupSetter__() { [native code] }");
   ("__proto__", "[object Object]")].

(** The text of the property that a plain object inherits under [k]. *)
Definition inherited (k : string) : option string :=
  snd <$> List.find (λ p, String.eqb (fst p) k) Object_prototype.

(** What [o[k]] reads on an object literal [o]. *)
Inductive property (V : Type) : Type :=
  | Own (v : V)
  | FromPrototype (text : string).
Arguments Own {V} v.
Arguments FromPrototype {V} text.

(** [o[k]]: an own property first, an inherited one otherwise, and
    [None] for [undefined]. *)
Definition plain_get {V} (o : gmap string V) (k : string)
  : option (property V) :=
  match o !! k with
  | Some v => Some (Own v)
  | None => FromPrototype <$> inherited k
  end.

(** Truthiness of a version read from a capability entry. *)
Definition version_truthy (p : property number) : bool :=
  match p with
  | Own n => number_truthy n
  | FromPrototype _ => true
  end.

(** Truthiness of a name read from [browserNameMap]. *)
Definition name_truthy (p : property string) : bool :=
  match p with
  | Own s => negb (String.eqb s "")
  | FromPrototype _ => true
  end.

(** A value read from [browserNameMap], used as a property name. *)
Definition property_key (p : property string) : string :=
  match p with
  | Own s => s
  | FromPrototype text => text
  end.

(** ** Exceptions *)

Inductive error : Type :=
  (** "Target version must be a number, '<version>' was given for
      '<environment>'" *)
  | TargetVersionNotNumber (lowestTargetedVersion environment : string)
  (** "Electron version must be a semver version" *)
  | ElectronNotSemver
  (** "Electron version <m[1]> is either too old or too new" *)
  | ElectronTooOldOrNew (version : string)
  (** whatever [normalizeOptions] throws *)
  | InvalidOptions (message : string).

Inductive result (A : Type) : Type :=
  | Ok (a : A)
  | Throw (e : error).
Arguments Ok {A} a.
Arguments Throw {A} e.

#[global] Instance result_ret : MRet result := λ A a, Ok a.

#[global] Instance result_bind : MBind result := λ A B k m,
  match m with
  | Ok a => k a
  | Throw e => Throw e
  end.

(** [l.filter(f)] for a callback that may throw: the callback runs on the
    elements in order and the first exception aborts the whole filter. *)
Fixpoint filterM {A} (f : A → result bool) (l : list A) : result (list A) :=
  match l with
  | [] => Ok []
  | x :: l' =>
      b ← f x;
      r ← filterM f l';
      Ok (if b : bool then x :: r else r)
  end.

(** ** Strings *)

Definition is_digit (c : ascii) : bool :=
  let n := nat_of_ascii c in (48 <=? n)%nat && (n <=? 57)%nat.

(** The longest prefix of decimal digits, and what follows it. *)
Fixpoint span_digits (s : string) : string * string :=
  match s with
  | String c r =>
      if is_digit c
      then let '(ds, rest) := span_digits r in (String c ds, rest)
      else ("", s)
  | EmptyString => ("", "")
  end.

(** [s.split(" ")]: the pieces between the separators (never empty). *)
Fixpoint split_space (s : string) : list string :=
  match s with
  | EmptyString => [""]
  | String c r =>
      if Ascii.eqb c " "%char then "" :: split_space r
      else match split_space r with
           | p :: ps => String c p :: ps
           | [] => [String c ""]
           end
  end.

(** The white space and the line terminators that [parseInt] skips.  A
    string is the sequence of its bytes in UTF-8: the characters up to
    U+007F are one byte, U+00A0 is two, and the others are three. *)
Definition is_white (c : ascii) : bool :=
  let n := nat_of_ascii c in
  ((9 <=? n)%nat && (n <=? 13)%nat) || (n =? 32)%nat.

(** U+00A0 *)
Definition is_white2 (c1 c2 : ascii) : bool :=
  (nat_of_ascii c1 =? 194)%nat && (nat_of_ascii c2 =? 160)%nat.

(** U+1680, U+2000 to U+200A, U+2028, U+2029, U+202F, U+205F, U+3000
    and U+FEFF *)
Definition is_white3 (c1 c2 c3 : ascii) : bool :=
  let '(n1, n2, n3) := (nat_of_ascii c1, nat_of_ascii c2, nat_of_ascii c3) in
  ((n1 =? 225) && (n2 =? 154) && (n3 =? 128))%nat
  || ((n1 =? 226) && (n2 =? 128)
      && (((128 <=? n3) && (n3 <=? 138)) || (n3 =? 168) || (n3 =? 169)
          || (n3 =? 175)))%nat
  || ((n1 =? 226) && (n2 =? 129) && (n3 =? 159))%nat
  || ((n1 =? 227) && (n2 =? 128) && (n3 =? 128))%nat
  || ((n1 =? 239) && (n2 =? 187) && (n3 =? 191))%nat.

Fixpoint trim_start (s : string) : string :=
  match s with
  | String c1 r1 =>
      if is_white c1 then trim_start r1
      else
        match r1 with
        | String c2 r2 =>
            if is_white2 c1 c2 then trim_start r2
            else
              match r2 with
              | String c3 r3 =>
                  if is_white3 c1 c2 c3 then trim_start r3 else s
              | EmptyString => s
              end
        | EmptyString => s
        end
  | EmptyString => s
  end.

(** The value of a digit in radix 16 (so also in radix 10). *)
Definition hex_digit (c : ascii) : option Z :=
  let n := Z.of_nat (nat_of_ascii c) in
  if (48 <=? n)%Z && (n <=? 57)%Z then Some (n - 48)%Z
  else if (97 <=? n)%Z && (n <=? 102)%Z then Some (n - 87)%Z
  else if (65 <=? n)%Z && (n <=? 70)%Z then Some (n - 55)%Z
  else None.

Definition digit_in (radix : Z) (c : ascii) : option Z :=
  match hex_digit c with
  | Some d => if (d <? radix)%Z then Some d else None
  | None => None
  end.

(** Reads digits of the radix as long as there are some: the value read
    so far and whether a digit was seen. *)
Fixpoint read_digits (radix : Z) (s : string) (acc : Z) (seen : bool)
  : Z * bool :=
  match s with
  | String c r =>
      match digit_in radix c with
      | Some d => read_digits radix r (acc * radix + d)%Z true
      | None => (acc, seen)
      end
  | EmptyString => (acc, seen)
  end.

(** [parseInt(s)] with no radix argument. *)
Definition parseInt (s : string) : number :=
  let s := trim_start s in
  let '(sign, s) :=
    match s with
    | String "-" r => ((-1)%Z, r)
    | String "+" r => (1%Z, r)
    | _ => (1%Z, s)
    end in
  let '(radix, s) :=
    match s with
    | String "0" (String "x" r) | String "0" (String "X" r) => (16%Z, r)
    | _ => (10%Z, s)
    end in
  match read_digits radix s 0 false with
  | (n, true) => to_double (sign * n)
  | (_, false) => NaN
  end.

(** [/^(\d+\.\d+)/]: the first capture group of the match, if any. *)
Definition match_major_minor (s : string) : option string :=
  match span_digits s with
  | (String _ _ as major, String "." rest) =>
      match span_digits rest with
      | (String _ _ as minor, _) => Some (major ++ "." ++ minor)
      | _ => None
      end
  | _ => None
  end.

(** [/^(es\d+|web)\./]: whether the name matches. *)
Definition match_builtIn (opt : string) : bool :=
  match opt with
  | String "e" (String "s" r) =>
      match span_digits r with
      | (String _ _, String "." _) => true
      | _ => false
      end
  | String "w" (String "e" (String "b" (String "." _))) => true
  | _ => false
  end.

(** ** What the module imports

    The JavaScript runtime and the [browserslist] package are outside
    the repository: they are taken as given.  [browserslist] is the
    release-query resolver, from a query to "name version" strings; the
    statements about a browsers query are about the queries that it
    answers. *)

Class Host := {
  browserslist : value → list string;
  (** [process.versions.node] *)
  process_versions_node : string;
  parseFloat : string → number;
  (** [String(n)] for a number *)
  Number_toString : number → string;
  (** the conversion of a string to a number, as [<] applies it *)
  StringToNumber : string → number;
}.

(** The data modules the file imports ([../data/plugins.json],
    [../data/built-ins.json], [./default-includes],
    [../data/electron-to-chromium], [./module-transformations]), in the
    key order of their files where the code enumerates them. *)
Class Data := {
  pluginList : list (string * capability);
  builtInsList : list (string * capability);
  defaultInclude : list string;
  electronToChromium : object;
  moduleTransformations : gmap string string;
}.

(** [table[name]] for a capability table. *)
Definition table_get (table : list (string * capability)) (name : string)
  : option capability :=
  snd <$> List.find (λ entry, String.eqb (fst entry) name) table.

(** ** The target normalizer and the requirement evaluator *)

Section Core.
Context `{Host} `{Data}.

(** [String(v)] *)
Definition ToString (v : value) : string :=
  match v with
  | VUndefined => "undefined"
  | VNull => "null"
  | VBool true => "true"
  | VBool false => "false"
  | VNum n => Number_toString n
  | VStr s => s
  | VArr l => String.concat "," l
  end.

Definition ToNumber (v : value) : number :=
  match v with
  | VUndefined => NaN
  | VNull => of_Z 0
  | VBool true => of_Z 1
  | VBool false => of_Z 0
  | VNum n => n
  | VStr s => StringToNumber s
  | VArr l => StringToNumber (String.concat "," l)
  end.

(** [v < n] where the right operand is a number: the left one is
    converted to a number. *)
Definition js_lt (v : value) (n : number) : bool :=
  number_lt (ToNumber v) n.

(** [v < p] for what a capability entry holds under a name: a number,
    or an inherited value, which [<] converts to its text.  Two strings
    (an array is converted to a string) are compared as strings, by
    their bytes; anything else is compared as numbers. *)
Definition js_lt_property (v : value) (p : property number) : bool :=
  match p with
  | Own n => js_lt v n
  | FromPrototype text =>
      match v with
      | VStr s => String.ltb s text
      | VArr l => String.ltb (String.concat "," l) text
      | _ => number_lt (ToNumber v) (StringToNumber text)
      end
  end.

Definition isPluginRequired_callback
    (supportedEnvironments : object) (plugin : capability)
    (environment : string) : result bool :=
  match plain_get plugin environment with
  | None => Ok true
  | Some lowestImplementedVersion =>
      (* Feature is not implemented in that environment *)
      if negb (version_truthy lowestImplementedVersion) then Ok true
      else
        let lowestTargetedVersion := get supportedEnvironments environment in
        match lowestTargetedVersion with
        | VStr s => Throw (TargetVersionNotNumber s environment)
        | _ =>
            Ok (js_lt_property lowestTargetedVersion lowestImplementedVersion)
        end
  end.

Definition isBrowsersQueryValid (browsers : value) : bool :=
  match browsers with
  | VStr _ | VArr _ => true
  | _ => false
  end.

Definition browserNameMap : gmap string string :=
  list_to_map
    [("chrome", "chrome"); ("edge", "edge"); ("firefox", "firefox");
     ("ie", "ie"); ("ios_saf", "ios"); ("safari", "safari")].

(** The accumulator [all] starts empty and only ever receives results
    of [Math.min]: it is a map to numbers.  Its keys are values of
    [browserNameMap] and texts of inherited properties, none of which is
    a name that [all] itself inherits. *)
Definition getLowestVersions (browsers : list string) : gmap string number :=
  foldl (λ all browser,
    let parts := split_space browser in
    let browserName := parts !! 0%nat in
    let browserVersion := parts !! 1%nat in
    let normalizedBrowserName := browserName ≫= plain_get browserNameMap in
    let parsedBrowserVersion :=
      parseInt (default "undefined" browserVersion) in
    match normalizedBrowserName with
    | Some name =>
        if name_truthy name && negb (isNaN parsedBrowserVersion)
        then
          let key := property_key name in
          let lowest :=
            match all !! key with
            | Some n => if number_truthy n then n else PosInf
            | None => PosInf
            end in
          <[key := Math_min lowest parsedBrowserVersion]> all
        else all
    | None => all
    end) ∅ browsers.

Definition mergeBrowsers (fromQuery fromTarget : object) : object :=
  foldl (λ queryObj targKey,
    if decide (targKey ≠ "browsers")
    then <[targKey := get fromTarget targKey]> queryObj
    else queryObj) fromQuery (Object_keys fromTarget).

Definition getCurrentNodeVersion : number :=
  parseFloat process_versions_node.

Definition electronVersionToChromeVersion (semverVer : value)
  : result value :=
  let semverVer := ToString semverVer in
  let semverVer := if String.eqb semverVer "1" then "1.0" else semverVer in
  match match_major_minor semverVer with
  | None => Throw ElectronNotSemver
  | Some m1 =>
      let result := get electronToChromium m1 in
      if negb (truthy result) then Throw (ElectronTooOldOrNew m1)
      else Ok result
  end.

(** [_extends({}, source)]: the own properties of [source] copied into
    a fresh object. *)
Definition _extends (target source : object) : object :=
  source ∪ target.

(** [targets] is [None] when the argument is [undefined]: the default
    [{}] applies. *)
Definition getTargets (targets : option object) : result object :=
  let targets := default ∅ targets in
  let targetOps := _extends ∅ targets in
  let targetOps :=
    if strict_eq_true (get targetOps "node")
       || strict_eq_string (get targetOps "node") "current"
    then <["node" := VNum getCurrentNodeVersion]> targetOps
    else targetOps in
  (* Rewrite Electron versions to their Chrome equivalents *)
  targetOps ←
    (if truthy (get targetOps "electron") then
       chrome ← electronVersionToChromeVersion (get targetOps "electron");
       Ok (delete "electron" (<["chrome" := chrome]> targetOps))
     else Ok targetOps);
  let browserOpts := get targetOps "browsers" in
  if isBrowsersQueryValid browserOpts then
    let queryBrowsers := getLowestVersions (browserslist browserOpts) in
    Ok (mergeBrowsers (VNum <$> queryBrowsers) targetOps)
  else Ok targetOps.

Definition isPluginRequired (supportedEnvironments : object)
    (plugin : capability) : result bool :=
  supportedEnvironments ←
    (if truthy (get supportedEnvironments "browsers")
     then getTargets (Some supportedEnvironments)
     else Ok supportedEnvironments);
  let targetEnvironments := Object_keys supportedEnvironments in
  if (length targetEnvironments =? 0)%nat then Ok true
  else
    isRequiredForEnvironments ←
      filterM (isPluginRequired_callback supportedEnvironments plugin)
        targetEnvironments;
    Ok (if (0 <? length isRequiredForEnvironments)%nat then true else false).

End Core.

(** ** The preset builder *)

(** [l.indexOf(x)] *)
Fixpoint indexOf (l : list string) (x : string) : Z :=
  match l with
  | [] => (-1)%Z
  | y :: l' =>
      if String.eqb y x then 0%Z
      else let i := indexOf l' x in if (i =? -1)%Z then (-1)%Z else (i + 1)%Z
  end.

Record IncludesAndExcludes := {
  all : list string;
  plugins : list string;
  builtIns : list string;
}.

Definition transformIncludesAndExculdes (opts : list string)
  : IncludesAndExcludes :=
  {| all := opts;
     plugins := List.filter (λ opt, negb (match_builtIn opt)) opts;
     builtIns := List.filter (λ opt, match_builtIn opt) opts |}.

(** What [normalizeOptions] returns, as far as [buildPreset] reads it.
    [moduleType] is [None] for [false]; [targets] is [None] when it is
    [undefined]. *)
Record ValidatedOptions := {
  debug : bool;
  loose : bool;
  moduleType : option string;
  useBuiltIns : bool;
  targets : option object;
  include : list string;
  exclude : list string;
}.

(** The first component of an entry of the returned list. *)
Inductive plugin_module : Type :=
  (** [require(`babel-plugin-${name}`)] *)
  | require_babel_plugin (name : string)
  | transformPolyfillRequirePlugin.

(** The second component: [{ loose }] or [{ polyfills, regenerator }]. *)
Inductive plugin_options : Type :=
  | Loose (loose : bool)
  | Polyfills (polyfills : option (list string)) (regenerator : bool).

(** The line feed that starts some of the lines of the debug output. *)
Definition LF : string := String (ascii_of_nat 10) "".

(** What [console.log] receives, before it is formatted. *)
Inductive console_line : Type :=
  | Line (text : string)
  (** [JSON.stringify(targets, null, 2)] *)
  | LineTargets (targets : object)
  (** [`\nModules transform: ${moduleType}`] *)
  | LineModules (moduleType : option string)
  (** [`  ${plugin} ${JSON.stringify(filteredList)}`] *)
  | LinePlugin (plugin : string) (filteredList : gmap string (option number)).

(** The module-level state: the [hasBeenLogged] latch, and the console. *)
Record Session := {
  hasBeenLogged : bool;
  console : list console_line;
}.

Definition logPlugin (plugin : string) (targets : object)
    (list : list (string * capability)) : console_line :=
  let envList := default ∅ (table_get list plugin) in
  let filteredList :=
    foldl (λ a b, <[b := envList !! b]> a) ∅ (Object_keys targets) in
  LinePlugin plugin filteredList.

Section Preset.
Context `{Host} `{Data}.
Context {Options : Type} (normalizeOptions : Options → result ValidatedOptions).

(** [Object.keys(table).filter((name) => isPluginRequired(targets, table[name]))].
    A name comes from the table itself, so [table[name]] is there. *)
Definition requiredNames (targets : object)
    (table : list (string * capability)) : result (list string) :=
  filterM (λ name, isPluginRequired targets (default ∅ (table_get table name)))
    table.*1.

(** Lines 178-194: the one-time debug output. *)
Definition debugLog (opts : ValidatedOptions) (targets : object)
    (transformations : list string) (polyfills : option (list string))
    (st : Session) : Session :=
  if debug opts && negb (hasBeenLogged st) then
    {| hasBeenLogged := true;
       console :=
         (console st ++
          [Line "babel-preset-env: `DEBUG` option";
           Line (LF ++ "Using targets:");
           LineTargets targets;
           LineModules (moduleType opts);
           Line (LF ++ "Using plugins:")] ++
          ((λ transform, logPlugin transform targets pluginList)
             <$> transformations) ++
          [Line (LF ++ "Using polyfills:")] ++
          match polyfills with
          | Some polyfills =>
              if useBuiltIns opts && (0 <? length polyfills)%nat
              then (λ polyfill, logPlugin polyfill targets builtInsList)
                     <$> polyfills
              else []
          | None => []
          end)%list |}
  else st.

Definition buildPreset (opts : Options) (st : Session)
  : result (list (plugin_module * plugin_options)) * Session :=
  let computed :=
    validatedOptions ← normalizeOptions opts;
    targets ← getTargets (targets validatedOptions);
    let include := transformIncludesAndExculdes (include validatedOptions) in
    let exclude := transformIncludesAndExculdes (exclude validatedOptions) in
    transformations ← requiredNames targets pluginList;
    polyfills ←
      (if useBuiltIns validatedOptions then
         required ← requiredNames targets builtInsList;
         Ok (Some
           (List.filter (λ plugin, (indexOf (builtIns exclude) plugin =? -1)%Z)
              (required ++ defaultInclude)
            ++ builtIns include)%list)
       else Ok None);
    Ok (validatedOptions, targets, include, exclude, transformations, polyfills) in
  match computed with
  | Throw e => (Throw e, st)
  | Ok (validatedOptions, targets, include, exclude, transformations, polyfills) =>
      let st := debugLog validatedOptions targets transformations polyfills st in
      let allTransformations :=
        (List.filter (λ plugin, (indexOf (plugins exclude) plugin =? -1)%Z)
           transformations
         ++ plugins include)%list in
      let regenerator :=
        (0 <=? indexOf allTransformations "transform-regenerator")%Z in
      let modulePlugin :=
        match moduleType validatedOptions with
        | None => None
        | Some moduleType => moduleTransformations !! moduleType
        end in
      let plugins := [] in
      let plugins :=
        match modulePlugin with
        | Some modulePlugin =>
            if negb (String.eqb modulePlugin "")
            then (plugins ++
                  [(require_babel_plugin modulePlugin,
                    Loose (loose validatedOptions))])%list
            else plugins
        | None => plugins
        end in
      let plugins :=
        (plugins ++
         ((λ pluginName,
            (require_babel_plugin pluginName, Loose (loose validatedOptions)))
           <$> allTransformations))%list in
      let plugins :=
        if useBuiltIns validatedOptions
        then (plugins ++
              [(transformPolyfillRequirePlugin,
                Polyfills polyfills regenerator)])%list
        else plugins in
      (Ok plugins, st)
  end.

End Preset.

(** ** The vocabulary of the statements

    Names for parts of the functions above (a stretch of lines, a
    callback), and the notions the specification uses. *)

Section Vocabulary.
Context `{Host} `{Data}.

(** [v >= n] where the right operand is a number. *)
Definition js_ge (v : value) (n : number) : bool :=
  number_ge (ToNumber v) n.

(** [v >= p] for what a capability entry holds under a name. *)
Definition js_ge_property (v : value) (p : property number) : bool :=
  match p with
  | Own n => js_ge v n
  | FromPrototype text =>
      match v with
      | VStr s => negb (String.ltb s text)
      | VArr l => negb (String.ltb (String.concat "," l) text)
      | _ => number_ge (ToNumber v) (StringToNumber text)
      end
  end.

(** Lines 24-44 of [isPluginRequired]: the decision on the map that
    the first lines leave in [supportedEnvironments]. *)
Definition evaluate (supportedEnvironments : object) (plugin : capability)
  : result bool :=
  let targetEnvironments := Object_keys supportedEnvironments in
  if (length targetEnvironments =? 0)%nat then Ok true
  else
    isRequiredForEnvironments ←
      filterM (isPluginRequired_callback supportedEnvironments plugin)
        targetEnvironments;
    Ok (if (0 <? length isRequiredForEnvironments)%nat then true else false).

(** The property name under which [getLowestVersions] files a release
    called [raw]: what [browserNameMap[raw]] reads, as a property name. *)
Definition normalizedName (raw : string) : option string :=
  property_key <$> plain_get browserNameMap raw.

(** A release string survives under [name] with [version] when
    [browserNameMap] reads [name] for its name, and its version parses
    as an integer, [version]. *)
Definition survives (browser name : string) (version : number) : Prop :=
  ∃ raw, split_space browser !! 0%nat = Some raw ∧
         normalizedName raw = Some name ∧
         version = parseInt (default "undefined" (split_space browser !! 1%nat)) ∧
         isNaN version = false.

(** A release string is kept under [name] with [version] when its name
    is a key of [browserNameMap], with value [name], and its version
    parses as an integer, [version]. *)
Definition kept (browser name : string) (version : number) : Prop :=
  ∃ raw, split_space browser !! 0%nat = Some raw ∧
         browserNameMap !! raw = Some name ∧
         version = parseInt (default "undefined" (split_space browser !! 1%nat)) ∧
         isNaN version = false.

(** The name of a release is a browser name, not the name of a property
    that every object has. *)
Definition browser_named (browser : string) : Prop :=
  ∀ raw, split_space browser !! 0%nat = Some raw → inherited raw = None.

(** [all[name] || Infinity] *)
Definition lowestSoFar (all : gmap string number) (name : string) : number :=
  match all !! name with
  | Some n => if number_truthy n then n else PosInf
  | None => PosInf
  end.

(** The callback of the [reduce] in [getLowestVersions]. *)
Definition lowestStep (all : gmap string number) (browser : string)
  : gmap string number :=
  match split_space browser !! 0%nat ≫= plain_get browserNameMap with
  | Some name =>
      let parsedBrowserVersion :=
        parseInt (default "undefined" (split_space browser !! 1%nat)) in
      if name_truthy name && negb (isNaN parsedBrowserVersion)
      then <[property_key name :=
               Math_min (lowestSoFar all (property_key name))
                 parsedBrowserVersion]> all
      else all
  | None => all
  end.

(** What [getLowestVersions] has computed after a prefix of the
    releases, none of whose surviving versions is 0. *)
Definition lowestOf (browsers : list string) (all : gmap string number) : Prop :=
  ∀ name,
    match all !! name with
    | None => ∀ browser version, browser ∈ browsers → ¬ survives browser name version
    | Some lowest =>
        (∃ browser, browser ∈ browsers ∧ survives browser name lowest) ∧
        (∀ browser version, browser ∈ browsers → survives browser name version →
           number_ge version lowest = true)
    end.

(** Line 121-123 of [getTargets]: [node: true] and [node: "current"]
    become the running version. *)
Definition resolveNode (targetOps : object) : object :=
  if strict_eq_true (get targetOps "node")
     || strict_eq_string (get targetOps "node") "current"
  then <["node" := VNum getCurrentNodeVersion]> targetOps
  else targetOps.

(** Lines 119-129 of [getTargets]: the map [targetOps] as it stands
    when the [browsers] query is looked at. *)
Definition rewriteShorthands (targets : object) : result object :=
  let targetOps := resolveNode (_extends ∅ targets) in
  if truthy (get targetOps "electron") then
    chrome ← electronVersionToChromeVersion (get targetOps "electron");
    Ok (delete "electron" (<["chrome" := chrome]> targetOps))
  else Ok targetOps.

Definition normalizedNames : list string :=
  ["chrome"; "edge"; "firefox"; "ie"; "ios"; "safari"].

(** A number that [parseInt] can give, NaN apart. *)
Definition whole (n : number) : Prop :=
  n = PosInf ∨ n = NegInf ∨ ∃ z, n = of_Z z.

(** The keys that [getLowestVersions] can write. *)
Definition queryKeys : list string :=
  (normalizedNames ++ Object_prototype.*2)%list.

(** [/^\d+$/] and [/^\d/] *)
Definition all_digits (s : string) : bool :=
  match span_digits s with
  | (String _ _, EmptyString) => true
  | _ => false
  end.

Definition starts_with_digit (s : string) : bool :=
  match s with
  | String c _ => is_digit c
  | EmptyString => false
  end.

(** The version string that [electronVersionToChromeVersion] matches
    against [/^(\d+\.\d+)/]. *)
Definition electronSemver (semverVer : value) : string :=
  if String.eqb (ToString semverVer) "1" then "1.0" else ToString semverVer.

(** The names of the built-in partition and of the plugin partition of
    an [include] or [exclude] list. *)
Definition builtInNames (opts : list string) : list string :=
  List.filter match_builtIn opts.

Definition pluginNames (opts : list string) : list string :=
  List.filter (λ opt, negb (match_builtIn opt)) opts.

(** Exclusion, then inclusion. *)
Definition selectedTransformations (v : ValidatedOptions)
    (transformations : list string) : list string :=
  (List.filter (λ name, bool_decide (name ∉ pluginNames (exclude v)))
     transformations
   ++ pluginNames (include v))%list.

Definition selectedPolyfills (v : ValidatedOptions) (required : list string)
  : list string :=
  (List.filter (λ name, bool_decide (name ∉ builtInNames (exclude v)))
     (required ++ defaultInclude)
   ++ builtInNames (include v))%list.

Definition transformUnits (v : ValidatedOptions) (transformations : list string)
  : list (plugin_module * plugin_options) :=
  (λ name, (require_babel_plugin name, Loose (loose v)))
    <$> selectedTransformations v transformations.

Definition polyfillUnit (v : ValidatedOptions)
    (transformations required : list string)
  : list (plugin_module * plugin_options) :=
  if useBuiltIns v then
    [(transformPolyfillRequirePlugin,
      Polyfills (Some (selectedPolyfills v required))
        (bool_decide ("transform-regenerator"
                      ∈ selectedTransformations v transformations)))]
  else [].

(** The module unit as the code pushes it: a name that is the empty
    string would be skipped. *)
Definition modulePushed (v : ValidatedOptions)
  : list (plugin_module * plugin_options) :=
  match moduleType v ≫= (moduleTransformations !!.) with
  | Some name =>
      if negb (String.eqb name "")
      then [(require_babel_plugin name, Loose (loose v))]
      else []
  | None => []
  end.

End Vocabulary.

(** ** A host and data for the worked examples

    The resolver below answers a query that already is a release (or a
    list of releases) with those releases, which is what [browserslist]
    does on the queries of the examples.  The remaining host fields are
    not reached by the examples.  The tables have the shape of the
    repository's data files. *)

Module Sample.

Local Open Scope Z_scope.

Definition host : Host := {|
  browserslist := λ query,
    match query with
    | VStr s => [s]
    | VArr l => l
    | _ => []
    end;
  process_versions_node := "";
  parseFloat := λ _, NaN;
  Number_toString := λ _, "NaN";
  StringToNumber := λ _, NaN;
|}.

Definition versions (l : list (string * Z)) : capability :=
  list_to_map (prod_map id of_Z <$> l).

Definition data : Data := {|
  pluginList :=
    [("transform-es2015-arrow-functions",
      versions [("chrome", 47); ("edge", 13); ("firefox", 45);
                ("safari", 10); ("node", 6)]);
     ("transform-regenerator",
      versions [("chrome", 50); ("firefox", 53); ("safari", 10);
                ("node", 6)]);
     ("transform-exponentiation-operator",
      versions [("chrome", 52); ("edge", 14); ("firefox", 52);
                ("node", 7)])];
  builtInsList :=
    [("es6.map", versions [("chrome", 51); ("edge", 13); ("firefox", 53);
                           ("safari", 10); ("node", 6)]);
     ("es7.string.pad-start",
      versions [("chrome", 57); ("edge", 15); ("firefox", 48);
                ("safari", 10)])];
  defaultInclude := ["web.timers"; "web.immediate"; "web.dom.iterable"];
  electronToChromium :=
    list_to_map
      [("1.0", VNum (of_Z 49)); ("1.1", VNum (of_Z 50));
       ("1.2", VNum (of_Z 51)); ("1.3", VNum (of_Z 52))];
  moduleTransformations :=
    list_to_map
      [("amd", "transform-es2015-modules-amd");
       ("commonjs", "transform-es2015-modules-commonjs");
       ("systemjs", "transform-es2015-modules-systemjs");
       ("umd", "transform-es2015-modules-umd")];
|}.

(** Options that are already validated. *)
Definition normalizeOptions (opts : ValidatedOptions)
  : result ValidatedOptions := Ok opts.

End Sample.

(** Options, a session and the list they give, for the examples. *)

Definition options51 : ValidatedOptions := {|
  debug := true;
  loose := false;
  moduleType := Some "commonjs";
  useBuiltIns := true;
  targets := Some {[ "chrome" := VNum (of_Z 51) ]};
  include := ["transform-regenerator"; "es6.map"];
  exclude := ["transform-regenerator"; "es6.map"; "web.timers"];
|}.

(** The same options for Chrome 49, where ["transform-regenerator"] and
    ["es6.map"] are required, excluded and included. *)
Definition options49 : ValidatedOptions := {|
  debug := true;
  loose := false;
  moduleType := Some "commonjs";
  useBuiltIns := true;
  targets := Some {[ "chrome" := VNum (of_Z 49) ]};
  include := ["transform-regenerator"; "es6.map"];
  exclude := ["transform-regenerator"; "es6.map"; "web.timers"];
|}.

Definition freshSession : Session :=
  {| hasBeenLogged := false; console := [] |}.

Definition units51 : list (plugin_module * plugin_options) :=
  [(require_babel_plugin "transform-es2015-modules-commonjs", Loose false);
   (require_babel_plugin "transform-exponentiation-operator", Loose false);
   (require_babel_plugin "transform-regenerator", Loose false);
   (transformPolyfillRequirePlugin,
    Polyfills
      (Some ["es7.string.pad-start"; "web.immediate"; "web.dom.iterable";
             "es6.map"])
      true)].

(** A host whose node is at version 7.4.0, and options without
    targets. *)
Definition host_node7 : Host := {|
  browserslist := λ query,
    match query with
    | VStr s => [s]
    | VArr l => l
    | _ => []
    end;
  process_versions_node := "7.4.0";
  parseFloat := λ s, if String.eqb s "7.4.0" then Fin (74 # 10) else NaN;
  Number_toString := λ _, "NaN";
  StringToNumber := λ _, NaN;
|}.

Definition optionsNoTargets : ValidatedOptions := {|
  debug := false;
  loose := true;
  moduleType := None;
  useBuiltIns := false;
  targets := None;
  include := [];
  exclude := ["transform-regenerator"];
|}.

(** ** The string functions on examples *)

Example parseInt_50 : parseInt "50" = of_Z 50.
Proof. reflexivity. Qed.

Example parseInt_range : parseInt "10.0-10.2" = of_Z 10.
Proof. reflexivity. Qed.

Example parseInt_all : parseInt "all" = NaN.
Proof. reflexivity. Qed.

Example split_space_release : split_space "chrome 50" = ["chrome"; "50"].
Proof. reflexivity. Qed.

Example match_major_minor_patch : match_major_minor "1.4.3" = Some "1.4".
Proof. reflexivity. Qed.

Example match_major_minor_bare : match_major_minor "2" = None.
Proof. reflexivity. Qed.

Example match_builtIn_es : match_builtIn "es6.map" = true.
Proof. reflexivity. Qed.

Example match_builtIn_plugin : match_builtIn "transform-regenerator" = false.
Proof. reflexivity. Qed.

(** ** Numbers: order facts *)

Lemma Qltb_spec (x y : Q) : Qltb x y = true ↔ (x < y)%Q.
Proof.
  unfold Qltb. rewrite negb_true_iff.
  split.
  - intros Hb. apply Qnot_le_lt. intros Hle.
    apply Qle_bool_iff in Hle. congruence.
  - intros Hlt. destruct (Qle_bool y x) eqn:E; [|done].
    apply Qle_bool_iff in E. exfalso. by apply (Qlt_not_le x y).
Qed.

Lemma number_ge_not_lt (a b : number) :
  number_ge a b = true → number_lt a b = false.
Proof.
  destruct a, b; simpl; try done.
  unfold Qltb. by intros ->.
Qed.

Lemma number_ge_refl (n : number) : isNaN n = false → number_ge n n = true.
Proof.
  destruct n; simpl; try done. intros _. apply Qle_bool_iff, Qle_refl.
Qed.

Lemma number_lt_ge_trans (b a v : number) :
  number_lt b a = true → number_ge v a = true → number_ge v b = true.
Proof.
  destruct b, a, v; simpl; try done.
  intros Hlt%Qltb_spec Hge%Qle_bool_iff. apply Qle_bool_iff.
  eapply Qle_trans; [|exact Hge]. by apply Qlt_le_weak.
Qed.

Lemma number_nlt_ge (b a : number) :
  isNaN a = false → isNaN b = false →
  number_lt b a = false → number_ge b a = true.
Proof.
  destruct b, a; simpl; try done.
  intros _ _. unfold Qltb. by intros ?%negb_false_iff.
Qed.

Lemma Math_min_eq (a b : number) :
  isNaN a = false → isNaN b = false →
  Math_min a b = if number_lt b a then b else a.
Proof. by destruct a, b. Qed.

Lemma Math_min_PosInf_l (v : number) :
  isNaN v = false → Math_min PosInf v = v.
Proof. by destruct v. Qed.

Lemma number_ge_antisym (a b : number) :
  whole a → whole b →
  number_ge a b = true → number_ge b a = true → a = b.
Proof.
  intros [->|[->|[x ->]]] [->|[->|[y ->]]]; simpl; try done.
  intros Hab%Qle_bool_iff Hba%Qle_bool_iff.
  rewrite <- Zle_Qle in Hab, Hba. f_equal. lia.
Qed.

Lemma to_double_whole (z : Z) : whole (to_double z).
Proof.
  unfold to_double, whole.
  repeat match goal with
         | |- context [if ?b then _ else _] => destruct b
         end; eauto.
Qed.

(** ** [filter] with a throwing callback *)

Lemma filterM_Ok_inv {A} (f : A → result bool) (l r : list A) :
  filterM f l = Ok r →
  (∀ x, x ∈ l → ∃ b, f x = Ok b) ∧ (∀ x, x ∈ r ↔ x ∈ l ∧ f x = Ok true).
Proof.
  revert r. induction l as [|a l IH]; intros r Hr; simpl in Hr.
  - injection Hr as <-. split; [by intros x ?%elem_of_nil|].
    intros x. split; [by intros ?%elem_of_nil | by intros [?%elem_of_nil _]].
  - destruct (f a) as [b|e] eqn:Ea; [|done]. simpl in Hr.
    destruct (filterM f l) as [r'|e] eqn:El; [|done]. simpl in Hr.
    injection Hr as <-. destruct (IH r' eq_refl) as [IH1 IH2].
    split.
    + intros x [->|Hx]%elem_of_cons; eauto.
    + intros x. destruct b.
      * rewrite !elem_of_cons, IH2. split.
        -- intros [->|[? ?]]; eauto.
        -- intros [[->|?] ?]; eauto.
      * rewrite elem_of_cons, IH2. split.
        -- intros [? ?]; eauto.
        -- intros [[->|?] ?]; [congruence | eauto].
Qed.

Lemma filterM_Throw_inv {A} (f : A → result bool) (l : list A) (e : error) :
  filterM f l = Throw e → ∃ x, x ∈ l ∧ f x = Throw e.
Proof.
  induction l as [|a l IH]; simpl; [done|].
  destruct (f a) as [b|e'] eqn:Ea; simpl.
  - destruct (filterM f l) as [r'|e'] eqn:El; simpl; [done|].
    intros [= ->]. destruct (IH eq_refl) as (x & Hx & Hfx).
    exists x. split; [by apply elem_of_cons; right | done].
  - intros [= ->]. exists a. split; [apply elem_of_cons; by left | done].
Qed.

Lemma filterM_total {A} (f : A → result bool) (l : list A) :
  (∀ x, x ∈ l → ∃ b, f x = Ok b) → ∃ r, filterM f l = Ok r.
Proof.
  intros Hall. destruct (filterM f l) as [r|e] eqn:E; [eauto|].
  apply filterM_Throw_inv in E as (x & Hx & Hfx).
  destruct (Hall x Hx) as [b Hb]. congruence.
Qed.

Lemma filterM_throws {A} (f : A → result bool) (l : list A) (x : A) (e : error) :
  x ∈ l → f x = Throw e → ∃ e', filterM f l = Throw e'.
Proof.
  intros Hx Hfx. destruct (filterM f l) as [r|e'] eqn:E; [|eauto].
  apply filterM_Ok_inv in E as [Hall _].
  destruct (Hall x Hx) as [b Hb]. congruence.
Qed.

(** ** Objects *)

Lemma elem_of_Object_keys {V} (o : gmap string V) (k : string) :
  k ∈ Object_keys o ↔ is_Some (o !! k).
Proof.
  unfold Object_keys. rewrite list_elem_of_fmap. split.
  - intros ([k' v] & -> & Hin). apply elem_of_map_to_list in Hin. eauto.
  - intros [v Hv]. exists (k, v). split; [done|].
    by apply elem_of_map_to_list.
Qed.

Lemma Object_keys_empty_iff {V} (o : gmap string V) :
  Object_keys o = [] ↔ o = ∅.
Proof.
  unfold Object_keys. split.
  - intros Hnil. apply fmap_nil_inv in Hnil. by apply map_to_list_empty_iff.
  - intros ->. by rewrite map_to_list_empty.
Qed.

Lemma get_Some (o : object) (k : string) (v : value) :
  o !! k = Some v → get o k = v.
Proof. unfold get. by intros ->. Qed.

Lemma get_None (o : object) (k : string) :
  o !! k = None → get o k = VUndefined.
Proof. unfold get. by intros ->. Qed.

(** ** The requirement evaluator *)

Section RequirementEvaluator.
Context `{Host} `{Data}.

Lemma isPluginRequired_eq (T : object) (C : capability) :
  isPluginRequired T C =
    supportedEnvironments ←
      (if truthy (get T "browsers") then getTargets (Some T) else Ok T);
    evaluate supportedEnvironments C.
Proof. reflexivity. Qed.

(** Without a truthy [browsers] property the evaluator works on the
    map it was given. *)
Lemma isPluginRequired_plain (T : object) (C : capability) :
  truthy (get T "browsers") = false →
  isPluginRequired T C =
    if (length (Object_keys T) =? 0)%nat then Ok true
    else
      r ← filterM (isPluginRequired_callback T C) (Object_keys T);
      Ok (if (0 <? length r)%nat then true else false).
Proof. intros Hb. unfold isPluginRequired. by rewrite Hb. Qed.

Lemma plain_get_Own {V} (o : gmap string V) (k : string) (v : V) :
  plain_get o k = Some (Own v) ↔ o !! k = Some v.
Proof.
  unfold plain_get. destruct (o !! k) as [v'|].
  - split; intros [= ->]; done.
  - split; [|done]. by destruct (inherited k).
Qed.

Lemma version_truthy_false (p : property number) :
  version_truthy p = false ↔ ∃ c, p = Own c ∧ number_truthy c = false.
Proof.
  destruct p as [c|text]; simpl.
  - split; [eauto | by intros (c' & [= <-] & ?)].
  - split; [done | by intros (c' & ? & _)].
Qed.

Lemma callback_true (T : object) (C : capability) (e : string) :
  isPluginRequired_callback T C e = Ok true ↔
  plain_get C e = None ∨
  ∃ p, plain_get C e = Some p ∧
       (version_truthy p = false ∨
        typeof_string (get T e) = false ∧ js_lt_property (get T e) p = true).
Proof.
  unfold isPluginRequired_callback.
  destruct (plain_get C e) as [p|]; [|split; eauto].
  destruct (version_truthy p) eqn:Hp; cbn [negb].
  - destruct (get T e) eqn:Hg; cbn [typeof_string]; split;
      try (intros [= Hlt]; right; exists p; by eauto);
      try (intros [?|(p' & [= <-] & [?|[? Hlt]])]; try congruence).
  - split; [|done]. intros _. right. exists p. eauto.
Qed.

Lemma callback_throw (T : object) (C : capability) (e : string) (err : error) :
  isPluginRequired_callback T C e = Throw err ↔
  ∃ p s, plain_get C e = Some p ∧ version_truthy p = true ∧
         get T e = VStr s ∧ err = TargetVersionNotNumber s e.
Proof.
  unfold isPluginRequired_callback.
  destruct (plain_get C e) as [p|]; [|split; [done | by intros (? & ? & ? & _)]].
  destruct (version_truthy p) eqn:Hp; cbn [negb].
  - destruct (get T e) eqn:Hg; split;
      try done; try (by intros (? & ? & _ & _ & ? & _)).
    + intros [= <-]. eauto 10.
    + intros (p' & s' & _ & _ & [= <-] & ->). done.
  - split; [done|]. intros (p' & ? & [= <-] & ? & _). congruence.
Qed.

Lemma callback_total (T : object) (C : capability) (e : string) :
  typeof_string (get T e) = false →
  ∃ b, isPluginRequired_callback T C e = Ok b.
Proof.
  intros Hs. destruct (isPluginRequired_callback T C e) as [b|err] eqn:E;
    [eauto|].
  apply callback_throw in E as (c & s & _ & _ & Hg & _).
  rewrite Hg in Hs. done.
Qed.

Lemma length_zero_keys {V} (o : gmap string V) :
  (length (Object_keys o) =? 0)%nat = true ↔ o = ∅.
Proof.
  rewrite Nat.eqb_eq, length_zero_iff_nil. apply Object_keys_empty_iff.
Qed.

Lemma nonempty_result {A} (r : list A) :
  (if (0 <? length r)%nat then true else false) = true ↔ ∃ x, x ∈ r.
Proof.
  destruct r as [|x r]; simpl.
  - split; [done | by intros [? ?%elem_of_nil]].
  - split; [|done]. intros _. exists x. apply elem_of_cons. by left.
Qed.

(** The decision on a map without strings: a boolean, [true] exactly
    when the map is empty or some environment reads nothing in [C], a
    falsy version, or a version above its own. *)
Lemma isPluginRequired_decides (T : object) (C : capability) :
  T !! "browsers" = None →
  (∀ e v, T !! e = Some v → typeof_string v = false) →
  ∃ b, isPluginRequired T C = Ok b ∧
    (b = true ↔
       T = ∅ ∨
       ∃ e v, T !! e = Some v ∧
         (plain_get C e = None ∨
          ∃ p, plain_get C e = Some p ∧
               (version_truthy p = false ∨ js_lt_property v p = true))).
Proof.
  intros Hnb Hnum.
  rewrite isPluginRequired_plain by (by rewrite (get_None _ _ Hnb)).
  destruct (length (Object_keys T) =? 0)%nat eqn:Hlen.
  { apply length_zero_keys in Hlen. exists true.
    split; [done|]. split; eauto. }
  assert (T ≠ ∅) as Hne.
  { intros HT. apply length_zero_keys in HT. congruence. }
  destruct (filterM_total (isPluginRequired_callback T C) (Object_keys T))
    as [r Hr].
  { intros e [v Hv]%elem_of_Object_keys. apply callback_total.
    rewrite (get_Some _ _ _ Hv). eauto. }
  rewrite Hr. simpl.
  apply filterM_Ok_inv in Hr as [_ Hr].
  eexists. split; [done|].
  rewrite nonempty_result. split.
  - intros (e & [[v Hv]%elem_of_Object_keys Hcb]%Hr).
    right. exists e, v. split; [done|].
    apply callback_true in Hcb as [?|(c & Hc & Hcase)]; [by left|].
    right. exists c. split; [done|].
    rewrite (get_Some _ _ _ Hv) in Hcase.
    destruct Hcase as [?|[_ ?]]; [by left | by right].
  - intros [?|(e & v & Hv & Hcase)]; [done|]. exists e. apply Hr. split.
    { apply elem_of_Object_keys. eauto. }
    apply callback_true. destruct Hcase as [?|(c & Hc & Hcase)]; [by left|].
    right. exists c. split; [done|]. rewrite (get_Some _ _ _ Hv).
    destruct Hcase as [?|?]; [by left|]. right. eauto.
Qed.

Lemma js_ge_not_lt (v : value) (p : property number) :
  js_ge_property v p = true → js_lt_property v p = false.
Proof.
  destruct p as [n|text]; simpl.
  - apply number_ge_not_lt.
  - destruct v; try apply number_ge_not_lt; by intros ?%negb_true_iff.
Qed.

(** C1, as amended: for a target map [T] with no [browsers] key and no
    string among its values, and a capability entry [C] whose versions
    for the environments of [T] are not 0 (nor NaN), [isPluginRequired]
    returns a boolean.  It returns [true] when [T] is empty; it returns
    [true] exactly when [T] is empty or some environment [e] of [T] has
    [C[e]] undefined or [T[e] < C[e]]; and it returns [false] when [T]
    is not empty and every environment [e] of [T] has [C[e]] defined
    with [T[e] >= C[e]].  [C[e]] is what the code reads: an own entry of
    [C], or else a property that [C] inherits, which is defined and is
    no number. *)
Theorem isPluginRequired_decision (T : object) (C : capability) :
  T !! "browsers" = None →
  (∀ e v, T !! e = Some v → typeof_string v = false) →
  (∀ e v c, T !! e = Some v → C !! e = Some c → number_truthy c = true) →
  (T = ∅ → isPluginRequired T C = Ok true) ∧
  (isPluginRequired T C = Ok true ↔
     T = ∅ ∨
     ∃ e v, T !! e = Some v ∧
       (plain_get C e = None ∨
        ∃ p, plain_get C e = Some p ∧ js_lt_property v p = true)) ∧
  (T ≠ ∅ →
   (∀ e v, T !! e = Some v →
      ∃ p, plain_get C e = Some p ∧ js_ge_property v p = true) →
   isPluginRequired T C = Ok false) ∧
  (∃ b, isPluginRequired T C = Ok b).
Proof.
  intros Hnb Hnum Hnz.
  destruct (isPluginRequired_decides T C Hnb Hnum) as (b & -> & Hb).
  assert (b = true ↔
          T = ∅ ∨
          ∃ e v, T !! e = Some v ∧
            (plain_get C e = None ∨
             ∃ p, plain_get C e = Some p ∧ js_lt_property v p = true))
    as Hiff.
  { rewrite Hb. split.
    - intros [?|(e & v & Hv & [?|(p & Hp & [Hz|?])])]; [by left|..].
      + right. exists e, v. eauto.
      + apply version_truthy_false in Hz as (c & -> & Hz).
        apply plain_get_Own in Hp. rewrite (Hnz e v c Hv Hp) in Hz. done.
      + right. exists e, v. eauto 10.
    - intros [?|(e & v & Hv & [?|(p & Hp & ?)])]; [by left|..].
      + right. exists e, v. eauto.
      + right. exists e, v. eauto 10. }
  split; [|split; [|split]].
  - intros HT. f_equal. apply Hiff. by left.
  - rewrite <- Hiff. split; [by intros [= ->] | by intros ->].
  - intros Hne Hall. f_equal. destruct b; [|done].
    destruct (proj1 Hiff eq_refl) as [?|(e & v & Hv & Hcase)]; [done|].
    destruct (Hall e v Hv) as (p & Hp & Hge).
    apply js_ge_not_lt in Hge.
    destruct Hcase as [?|(p' & ? & ?)]; congruence.
  - eauto.
Qed.

Lemma length_nonzero_keys {V} (o : gmap string V) (k : string) (v : V) :
  o !! k = Some v → (length (Object_keys o) =? 0)%nat = false.
Proof.
  intros Hk. destruct (length (Object_keys o) =? 0)%nat eqn:Hlen; [|done].
  apply length_zero_keys in Hlen. subst o. by rewrite lookup_empty in Hk.
Qed.

Lemma evaluate_Throw_inv (T : object) (C : capability) (err : error) :
  evaluate T C = Throw err →
  ∃ e s p, err = TargetVersionNotNumber s e ∧ T !! e = Some (VStr s) ∧
           plain_get C e = Some p ∧ version_truthy p = true.
Proof.
  unfold evaluate. destruct (length (Object_keys T) =? 0)%nat; [done|].
  destruct (filterM _ _) as [r|err'] eqn:Hr; [done|]. intros [= ->].
  apply filterM_Throw_inv in Hr as (e & [v Hv]%elem_of_Object_keys & Hcb).
  apply callback_throw in Hcb as (c & s & Hc & Htr & Hg & ->).
  rewrite (get_Some _ _ _ Hv) in Hg. subst v. eauto 10.
Qed.

Lemma evaluate_throws (T : object) (C : capability) (e s : string)
    (p : property number) :
  T !! e = Some (VStr s) → plain_get C e = Some p → version_truthy p = true →
  ∃ s' e', evaluate T C = Throw (TargetVersionNotNumber s' e').
Proof.
  intros He Hc Htr.
  destruct (evaluate T C) as [b|err] eqn:Hev.
  - unfold evaluate in Hev. rewrite (length_nonzero_keys _ _ _ He) in Hev.
    destruct (filterM_throws (isPluginRequired_callback T C) (Object_keys T) e
                (TargetVersionNotNumber s e)) as [err Herr].
    { apply elem_of_Object_keys. eauto. }
    { apply callback_throw. exists p, s. by rewrite (get_Some _ _ _ He). }
    by rewrite Herr in Hev.
  - destruct (evaluate_Throw_inv _ _ _ Hev) as (e' & s' & _ & -> & _). eauto.
Qed.


(** Without a string version that meets a truthy [C[e]], an environment
    on which the callback answers [true] decides. *)
Lemma isPluginRequired_by (T : object) (C : capability) (e : string) (v : value) :
  T !! "browsers" = None →
  T !! e = Some v →
  isPluginRequired_callback T C e = Ok true →
  (∀ e' s p, T !! e' = Some (VStr s) → plain_get C e' = Some p →
     version_truthy p = false) →
  isPluginRequired T C = Ok true.
Proof.
  intros Hnb He Hcb Hstr.
  rewrite isPluginRequired_plain by (by rewrite (get_None _ _ Hnb)).
  rewrite (length_nonzero_keys _ _ _ He).
  destruct (filterM _ _) as [r|err] eqn:Hr.
  - apply filterM_Ok_inv in Hr as [_ Hr].
    assert (e ∈ r) as Hin.
    { apply Hr. split; [apply elem_of_Object_keys; eauto | done]. }
    simpl. destruct r; [by apply elem_of_nil in Hin | done].
  - apply filterM_Throw_inv in Hr as (e' & [v' Hv']%elem_of_Object_keys & Hcb').
    apply callback_throw in Hcb' as (p & s & Hp & Htr & Hg & _).
    rewrite (get_Some _ _ _ Hv') in Hg. subst v'.
    rewrite (Hstr e' s p Hv' Hp) in Htr. done.
Qed.

(** C9, as amended: for a target map [T] without a truthy [browsers]
    property, [isPluginRequired] fails exactly when some environment of
    [T] has a string version and [C[e]], as the code reads it, is
    truthy for that environment: a non-zero version of [C], or a
    property that [C] inherits.  The error is then "Target version must
    be a number" for such an environment.  A string version against an
    undefined or zero [C[e]] is not looked at. *)
Theorem isPluginRequired_string_error (T : object) (C : capability) :
  truthy (get T "browsers") = false →
  (∀ err, isPluginRequired T C = Throw err →
     ∃ e s p, err = TargetVersionNotNumber s e ∧ T !! e = Some (VStr s) ∧
              plain_get C e = Some p ∧ version_truthy p = true) ∧
  (∀ e s p, T !! e = Some (VStr s) → plain_get C e = Some p →
     version_truthy p = true →
     ∃ s' e', isPluginRequired T C = Throw (TargetVersionNotNumber s' e')).
Proof.
  intros Hb. rewrite isPluginRequired_eq, Hb. split.
  - apply evaluate_Throw_inv.
  - apply evaluate_throws.
Qed.

(** C10, as amended: when [C] maps an environment [e] of [T] to 0 (or
    NaN), [isPluginRequired] returns [true] whatever [T[e]] is, a string
    included, provided no environment of [T] has a string version
    against a truthy [C[e']] (a non-zero version, or a property that
    [C] inherits): the filter still visits every environment, and such
    a string makes it fail. *)
Theorem isPluginRequired_zero_entry (T : object) (C : capability)
    (e : string) (v : value) (c : number) :
  T !! "browsers" = None →
  T !! e = Some v →
  C !! e = Some c →
  number_truthy c = false →
  (∀ e' s p, T !! e' = Some (VStr s) → plain_get C e' = Some p →
     version_truthy p = false) →
  isPluginRequired T C = Ok true.
Proof.
  intros Hnb He Hc Hz Hstr.
  apply (isPluginRequired_by T C e v); [done..| |done].
  apply callback_true. right. exists (Own c).
  split; [by apply plain_get_Own | by left].
Qed.

End RequirementEvaluator.

(** ** The lowest version of each queried browser *)

Section LowestVersions.

Lemma getLowestVersions_eq (browsers : list string) :
  getLowestVersions browsers = foldl lowestStep ∅ browsers.
Proof. reflexivity. Qed.

Lemma parseInt_cases (s : string) :
  parseInt s = NaN ∨ whole (parseInt s).
Proof.
  unfold parseInt.
  repeat match goal with
         | |- context [let '(_, _) := ?x in _] => destruct x
         end.
  match goal with |- context [if ?b then _ else _] => destruct b end;
    [right; apply to_double_whole | by left].
Qed.

Lemma browserNameMap_nonempty (raw name : string) :
  browserNameMap !! raw = Some name → String.eqb name "" = false.
Proof.
  revert raw name.
  change (map_Forall (λ _ name, String.eqb name "" = false) browserNameMap).
  refine (bool_decide_unpack _ _). vm_compute. exact I.
Qed.

Lemma browserNameMap_truthy (raw : string) (p : property string) :
  plain_get browserNameMap raw = Some p → name_truthy p = true.
Proof.
  unfold plain_get.
  destruct (browserNameMap !! raw) as [name|] eqn:Hname.
  - intros [= <-]. simpl. by rewrite (browserNameMap_nonempty _ _ Hname).
  - destruct (inherited raw); by intros [= <-].
Qed.

Lemma survives_whole (browser name : string) (version : number) :
  survives browser name version → whole version.
Proof.
  intros (raw & _ & _ & -> & Hnan).
  destruct (parseInt_cases (default "undefined" (split_space browser !! 1%nat)))
    as [Hp|Hp]; [by rewrite Hp in Hnan | done].
Qed.

Lemma survives_number (browser name : string) (version : number) :
  survives browser name version → isNaN version = false.
Proof. by intros (raw & _ & _ & _ & Hnan). Qed.

Lemma survives_functional (browser name name' : string) (version version' : number) :
  survives browser name version → survives browser name' version' →
  name = name' ∧ version = version'.
Proof.
  intros (raw & Hraw & Hname & -> & _) (raw' & Hraw' & Hname' & -> & _).
  split; congruence.
Qed.

Lemma lowestStep_survivor (all : gmap string number) (browser name : string)
    (version : number) :
  survives browser name version →
  lowestStep all browser = <[name := Math_min (lowestSoFar all name) version]> all.
Proof.
  intros (raw & Hraw & Hname & -> & Hnan). unfold lowestStep.
  rewrite Hraw. simpl. unfold normalizedName in Hname.
  destruct (plain_get browserNameMap raw) as [p|] eqn:Hp; [|done].
  injection Hname as <-.
  by rewrite (browserNameMap_truthy _ _ Hp), Hnan.
Qed.

Lemma lowestStep_dropped (all : gmap string number) (browser : string) :
  (∀ name version, ¬ survives browser name version) →
  lowestStep all browser = all.
Proof.
  intros Hno. unfold lowestStep.
  destruct (split_space browser !! 0%nat) as [raw|] eqn:Hraw; [|done].
  simpl. destruct (plain_get browserNameMap raw) as [p|] eqn:Hp; [|done].
  destruct (isNaN _) eqn:Hnan; [by rewrite andb_false_r|].
  exfalso. eapply Hno. exists raw. unfold normalizedName. rewrite Hp. eauto.
Qed.

Lemma survives_or_not (browser : string) :
  (∃ name version, survives browser name version) ∨
  (∀ name version, ¬ survives browser name version).
Proof.
  unfold survives.
  destruct (split_space browser !! 0%nat) as [raw|] eqn:Hraw;
    [|right; by intros ? ? (? & ? & _)].
  destruct (normalizedName raw) as [name|] eqn:Hname;
    [|right; intros ? ? (? & ? & ? & _); congruence].
  destruct (isNaN (parseInt (default "undefined" (split_space browser !! 1%nat))))
    eqn:Hnan.
  - right. intros ? ? (? & ? & ? & -> & ?). congruence.
  - left. eexists _, _. exists raw. eauto.
Qed.

(** A release whose name is a browser name survives exactly as it is
    kept. *)
Lemma survives_kept (browser name : string) (version : number) :
  browser_named browser →
  survives browser name version ↔ kept browser name version.
Proof.
  intros Hnamed. unfold survives, kept, normalizedName, plain_get. split.
  - intros (raw & Hraw & Hname & Hv & Hnan). exists raw.
    split; [done|]. split; [|done].
    destruct (browserNameMap !! raw) as [n|]; [by injection Hname as <-|].
    by rewrite (Hnamed raw Hraw) in Hname.
  - intros (raw & Hraw & Hname & Hv & Hnan). exists raw.
    split; [done|]. split; [|done]. by rewrite Hname.
Qed.

Lemma lowestOf_getLowestVersions (browsers : list string) :
  (∀ browser name version, browser ∈ browsers →
     survives browser name version → number_truthy version = true) →
  lowestOf browsers (getLowestVersions browsers).
Proof.
  rewrite getLowestVersions_eq.
  induction browsers as [|x prefix IH] using rev_ind; intros Hnz.
  { intros name. simpl. rewrite lookup_empty. by intros ? ? ?%elem_of_nil. }
  rewrite foldl_snoc.
  assert (lowestOf prefix (foldl lowestStep ∅ prefix)) as Hinv.
  { apply IH. intros b n v Hb. apply Hnz, elem_of_app. by left. }
  clear IH. set (all := foldl lowestStep ∅ prefix) in *.
  assert (x ∈ (prefix ++ [x])%list) as Hlast
    by (apply elem_of_app; right; by apply list_elem_of_singleton).
  destruct (survives_or_not x) as [(n0 & v0 & Hx)|Hno].
  - rewrite (lowestStep_survivor _ _ _ _ Hx).
    pose proof (survives_number _ _ _ Hx) as Hv0.
    intros name. specialize (Hinv name).
    destruct (decide (name = n0)) as [->|Hne].
    + rewrite lookup_insert_eq. unfold lowestSoFar.
      destruct (all !! n0) as [m|] eqn:Hm.
      * destruct Hinv as [(b & Hb & Hbm) Hge].
        pose proof (survives_number _ _ _ Hbm) as Hm0.
        rewrite (Hnz b n0 m ltac:(apply elem_of_app; by left) Hbm).
        rewrite (Math_min_eq _ _ Hm0 Hv0).
        destruct (number_lt v0 m) eqn:Hlt.
        -- split; [by exists x|].
           intros b' v' [Hb'|Heq%list_elem_of_singleton]%elem_of_app Hs; try subst b'.
           ++ eapply number_lt_ge_trans; [exact Hlt|]. by apply (Hge b').
           ++ destruct (survives_functional _ _ _ _ _ Hs Hx) as [_ ->].
              by apply number_ge_refl.
        -- split.
           { exists b. split; [apply elem_of_app; by left | done]. }
           intros b' v' [Hb'|Heq%list_elem_of_singleton]%elem_of_app Hs; try subst b'.
           ++ by apply (Hge b').
           ++ destruct (survives_functional _ _ _ _ _ Hs Hx) as [_ ->].
              by apply number_nlt_ge.
      * rewrite (Math_min_PosInf_l _ Hv0). split; [by exists x|].
        intros b' v' [Hb'|Heq%list_elem_of_singleton]%elem_of_app Hs; try subst b'.
        -- by destruct (Hinv b' v' Hb').
        -- destruct (survives_functional _ _ _ _ _ Hs Hx) as [_ ->].
           by apply number_ge_refl.
    + rewrite lookup_insert_ne by done.
      destruct (all !! name) as [m|].
      * destruct Hinv as [(b & Hb & Hbm) Hge]. split.
        { exists b. split; [apply elem_of_app; by left | done]. }
        intros b' v' [Hb'|Heq%list_elem_of_singleton]%elem_of_app Hs; try subst b'.
        -- by apply (Hge b').
        -- by destruct (survives_functional _ _ _ _ _ Hs Hx) as [? _].
      * intros b' v' [Hb'|Heq%list_elem_of_singleton]%elem_of_app Hs; try subst b'.
        -- by apply (Hinv b' v').
        -- by destruct (survives_functional _ _ _ _ _ Hs Hx) as [? _].
  - rewrite (lowestStep_dropped _ _ Hno).
    intros name. specialize (Hinv name).
    destruct (all !! name) as [m|].
    + destruct Hinv as [(b & Hb & Hbm) Hge]. split.
      { exists b. split; [apply elem_of_app; by left | done]. }
      intros b' v' [Hb'|Heq%list_elem_of_singleton]%elem_of_app Hs; try subst b'.
      * by apply (Hge b').
      * by destruct (Hno name v').
    + intros b' v' [Hb'|Heq%list_elem_of_singleton]%elem_of_app; try subst b'.
      * by apply Hinv.
      * apply Hno.
Qed.

End LowestVersions.

(** ** The target normalizer *)

Section TargetNormalizer.
Context `{Host} `{Data}.

Lemma getTargets_eq (targets : option object) :
  getTargets targets =
    targetOps ← rewriteShorthands (default ∅ targets);
    let browserOpts := get targetOps "browsers" in
    if isBrowsersQueryValid browserOpts then
      Ok (mergeBrowsers
            (VNum <$> getLowestVersions (browserslist browserOpts)) targetOps)
    else Ok targetOps.
Proof. reflexivity. Qed.

Lemma _extends_empty (source : object) : _extends ∅ source = source.
Proof. unfold _extends. apply (right_id ∅ (∪)). Qed.

(** *** [mergeBrowsers] is an overlay *)

Lemma mergeBrowsers_fold_lookup (fromTarget : object) (keys : list string)
    (fromQuery : object) (k : string) :
  foldl (λ queryObj targKey,
    if decide (targKey ≠ "browsers")
    then <[targKey := get fromTarget targKey]> queryObj
    else queryObj) fromQuery keys !! k =
  if decide (k ≠ "browsers" ∧ k ∈ keys) then Some (get fromTarget k)
  else fromQuery !! k.
Proof.
  revert fromQuery. induction keys as [|key keys IH]; intros fromQuery.
  - simpl. case_decide as Hk; [|done]. by destruct Hk as [_ ?%elem_of_nil].
  - simpl. rewrite IH. clear IH.
    destruct (decide (k ≠ "browsers" ∧ k ∈ keys)) as [[Hnb Hin]|Hno].
    + rewrite decide_True; [done|]. split; [done|]. apply elem_of_cons. eauto.
    + destruct (decide (key ≠ "browsers")) as [Hkey|Hkey].
      * destruct (decide (k = key)) as [->|Hne].
        -- rewrite lookup_insert_eq, decide_True; [done|].
           split; [done|]. apply elem_of_cons. eauto.
        -- rewrite lookup_insert_ne by done.
           rewrite decide_False; [done|].
           intros [? [?|?]%elem_of_cons]; [done|]. apply Hno. eauto.
      * rewrite decide_False; [done|].
        intros [? [->|?]%elem_of_cons]; [done|]. apply Hno. eauto.
Qed.

Lemma mergeBrowsers_lookup (fromQuery fromTarget : object) (k : string) :
  mergeBrowsers fromQuery fromTarget !! k =
  if decide (k = "browsers") then fromQuery !! k
  else match fromTarget !! k with
       | Some v => Some v
       | None => fromQuery !! k
       end.
Proof.
  unfold mergeBrowsers. rewrite mergeBrowsers_fold_lookup.
  destruct (decide (k = "browsers")) as [->|Hne].
  - rewrite decide_False; [done|]. by intros [? _].
  - destruct (fromTarget !! k) as [v|] eqn:Hk.
    + rewrite decide_True.
      * by rewrite (get_Some _ _ _ Hk).
      * split; [done|]. apply elem_of_Object_keys. eauto.
    + rewrite decide_False; [done|].
      intros [_ [v Hv]%elem_of_Object_keys]. congruence.
Qed.

Lemma mergeBrowsers_union (fromQuery fromTarget : object) :
  mergeBrowsers fromQuery fromTarget = delete "browsers" fromTarget ∪ fromQuery.
Proof.
  apply map_eq. intros k. rewrite mergeBrowsers_lookup, lookup_union.
  destruct (decide (k = "browsers")) as [->|Hne].
  - rewrite lookup_delete_eq. by destruct (fromQuery !! "browsers").
  - rewrite lookup_delete_ne by done.
    destruct (fromTarget !! k), (fromQuery !! k); done.
Qed.

(** *** The keys that a browsers query can produce *)

Lemma browserNameMap_range (raw name : string) :
  browserNameMap !! raw = Some name → name ∈ normalizedNames.
Proof.
  revert raw name.
  change (map_Forall (λ _ name, name ∈ normalizedNames) browserNameMap).
  refine (bool_decide_unpack _ _). vm_compute. exact I.
Qed.

Lemma inherited_text (k text : string) :
  inherited k = Some text → text ∈ Object_prototype.*2.
Proof.
  unfold inherited.
  destruct (List.find _ Object_prototype) as [[k' text']|] eqn:Hfind; [|done].
  intros [= <-]. apply find_some in Hfind as [Hin _].
  apply list_elem_of_fmap. exists (k', text').
  split; [done | by apply list_elem_of_In].
Qed.

Lemma normalizedName_range (raw name : string) :
  normalizedName raw = Some name → name ∈ queryKeys.
Proof.
  unfold normalizedName, plain_get, queryKeys. rewrite elem_of_app.
  destruct (browserNameMap !! raw) as [n|] eqn:Hn.
  - intros [= <-]. left. by eapply browserNameMap_range.
  - destruct (inherited raw) as [text|] eqn:Ht; [|done].
    intros [= <-]. right. by eapply inherited_text.
Qed.

Lemma foldl_invariant {A B} (P : A → Prop) (f : A → B → A) (l : list B) (a : A) :
  P a → (∀ a x, x ∈ l → P a → P (f a x)) → P (foldl f a l).
Proof.
  revert a. induction l as [|x l IH]; intros a Ha Hstep; [done|].
  simpl. apply IH.
  - apply Hstep; [apply elem_of_cons; by left | done].
  - intros a' y Hy. apply Hstep. apply elem_of_cons. by right.
Qed.

Lemma getLowestVersions_keys (browsers : list string) (k : string) :
  is_Some (getLowestVersions browsers !! k) → k ∈ queryKeys.
Proof.
  rewrite getLowestVersions_eq.
  apply (foldl_invariant
           (λ all : gmap string number, is_Some (all !! k) → k ∈ queryKeys)).
  - rewrite lookup_empty. by intros [? ?].
  - intros all browser _ IH.
    destruct (survives_or_not browser) as [(name & version & Hs)|Hno].
    + rewrite (lowestStep_survivor _ _ _ _ Hs).
      destruct (decide (k = name)) as [->|Hne]; [|by rewrite lookup_insert_ne].
      intros _. destruct Hs as (raw & _ & Hname & _).
      by eapply normalizedName_range.
    + by rewrite (lowestStep_dropped _ _ Hno).
Qed.

(** No key of a query result is a name that the accumulator inherits,
    nor one of the keys that [getTargets] treats apart. *)
Lemma queryKeys_ordinary (k : string) :
  k ∈ queryKeys → k ≠ "browsers" ∧ k ≠ "electron" ∧ inherited k = None.
Proof.
  revert k. apply Forall_forall.
  refine (bool_decide_unpack
    (Forall (λ k, k ≠ "browsers" ∧ k ≠ "electron" ∧ inherited k = None)
       queryKeys) _).
  vm_compute. exact I.
Qed.

Lemma getLowestVersions_not_browsers (browsers : list string) :
  getLowestVersions browsers !! "browsers" = None.
Proof.
  destruct (getLowestVersions browsers !! "browsers") eqn:E; [|done].
  assert ("browsers" ∈ queryKeys) as Hin
    by (eapply getLowestVersions_keys; eauto).
  by apply queryKeys_ordinary in Hin as [? _].
Qed.

Lemma getLowestVersions_not_electron (browsers : list string) :
  getLowestVersions browsers !! "electron" = None.
Proof.
  destruct (getLowestVersions browsers !! "electron") eqn:E; [|done].
  assert ("electron" ∈ queryKeys) as Hin
    by (eapply getLowestVersions_keys; eauto).
  by apply queryKeys_ordinary in Hin as (_ & ? & _).
Qed.

(** *** The shorthands [node] and [electron] *)

Lemma resolveNode_lookup_ne (targetOps : object) (k : string) :
  k ≠ "node" → resolveNode targetOps !! k = targetOps !! k.
Proof.
  intros Hk. unfold resolveNode.
  destruct (_ || _); [by rewrite lookup_insert_ne | done].
Qed.

Lemma resolveNode_get_ne (targetOps : object) (k : string) :
  k ≠ "node" → get (resolveNode targetOps) k = get targetOps k.
Proof. intros Hk. unfold get. by rewrite resolveNode_lookup_ne. Qed.

Lemma resolveNode_resolved (targetOps : object) :
  strict_eq_true (get (resolveNode targetOps) "node")
  || strict_eq_string (get (resolveNode targetOps) "node") "current" = false.
Proof.
  unfold resolveNode.
  destruct (strict_eq_true (get targetOps "node")
            || strict_eq_string (get targetOps "node") "current") eqn:E;
    [|done].
  unfold get. by rewrite lookup_insert_eq.
Qed.

Lemma resolveNode_idemp (targetOps : object) :
  resolveNode (resolveNode targetOps) = resolveNode targetOps.
Proof. unfold resolveNode at 1. by rewrite resolveNode_resolved. Qed.

Lemma rewriteShorthands_unfold (targets : object) :
  rewriteShorthands targets =
    if truthy (get targets "electron") then
      chrome ← electronVersionToChromeVersion (get targets "electron");
      Ok (delete "electron" (<["chrome" := chrome]> (resolveNode targets)))
    else Ok (resolveNode targets).
Proof.
  unfold rewriteShorthands. rewrite _extends_empty.
  by rewrite resolveNode_get_ne.
Qed.

Lemma rewriteShorthands_browsers (targets targetOps : object) :
  rewriteShorthands targets = Ok targetOps →
  targetOps !! "browsers" = targets !! "browsers".
Proof.
  rewrite rewriteShorthands_unfold.
  destruct (truthy (get targets "electron")).
  - destruct (electronVersionToChromeVersion _) as [chrome|]; [|done].
    intros [= <-].
    rewrite lookup_delete_ne, lookup_insert_ne by done.
    by apply resolveNode_lookup_ne.
  - intros [= <-]. by apply resolveNode_lookup_ne.
Qed.

Lemma electronVersionToChromeVersion_Ok (semverVer chrome : value) :
  electronVersionToChromeVersion semverVer = Ok chrome →
  truthy chrome = true ∧ ∃ version, electronToChromium !! version = Some chrome.
Proof.
  unfold electronVersionToChromeVersion.
  destruct (match_major_minor _) as [m1|]; [|done].
  destruct (truthy (get electronToChromium m1)) eqn:Htr; [|done].
  intros [= <-]. split; [done|]. exists m1. unfold get in *.
  by destruct (electronToChromium !! m1).
Qed.

Lemma electronVersionToChromeVersion_Throw (semverVer : value) (err : error) :
  electronVersionToChromeVersion semverVer = Throw err →
  err = ElectronNotSemver ∨ ∃ version, err = ElectronTooOldOrNew version.
Proof.
  unfold electronVersionToChromeVersion.
  destruct (match_major_minor _) as [m1|]; [|intros [= <-]; by left].
  destruct (truthy (get electronToChromium m1)); [done|].
  intros [= <-]. right. eauto.
Qed.

(** After the shorthands are rewritten, an [electron] property that is
    left is falsy. *)
Lemma rewriteShorthands_electron (targets targetOps : object) :
  rewriteShorthands targets = Ok targetOps →
  truthy (get targetOps "electron") = false.
Proof.
  rewrite rewriteShorthands_unfold.
  destruct (truthy (get targets "electron")) eqn:Htr.
  - destruct (electronVersionToChromeVersion _) as [chrome|]; [|done].
    intros [= <-]. unfold get. by rewrite lookup_delete_eq.
  - intros [= <-]. by rewrite resolveNode_get_ne.
Qed.

Lemma getTargets_Ok_inv (targets result : object) :
  getTargets (Some targets) = Ok result →
  ∃ targetOps, rewriteShorthands targets = Ok targetOps ∧
    result =
      if isBrowsersQueryValid (get targets "browsers") then
        mergeBrowsers
          (VNum <$> getLowestVersions (browserslist (get targets "browsers")))
          targetOps
      else targetOps.
Proof.
  rewrite getTargets_eq. simpl.
  destruct (rewriteShorthands targets) as [targetOps|] eqn:Hops; [|done].
  simpl. assert (get targetOps "browsers" = get targets "browsers") as ->.
  { unfold get. by rewrite (rewriteShorthands_browsers _ _ Hops). }
  intros Hres. exists targetOps. split; [done|].
  destruct (isBrowsersQueryValid _); by injection Hres.
Qed.

Lemma getTargets_Ok_intro (targets targetOps : object) :
  rewriteShorthands targets = Ok targetOps →
  getTargets (Some targets) =
    Ok (if isBrowsersQueryValid (get targets "browsers") then
          mergeBrowsers
            (VNum <$> getLowestVersions (browserslist (get targets "browsers")))
            targetOps
        else targetOps).
Proof.
  intros Hops. rewrite getTargets_eq. simpl. rewrite Hops. simpl.
  assert (get targetOps "browsers" = get targets "browsers") as ->.
  { unfold get. by rewrite (rewriteShorthands_browsers _ _ Hops). }
  by destruct (isBrowsersQueryValid _).
Qed.


(** A query result leaves the ordinary keys of [targetOps] alone. *)
Lemma merged_lookup (browsers : list string) (targetOps : object)
    (k : string) (v : value) :
  k ≠ "browsers" → targetOps !! k = Some v →
  mergeBrowsers (VNum <$> getLowestVersions browsers) targetOps !! k = Some v.
Proof.
  intros Hk Hv. rewrite mergeBrowsers_lookup, decide_False by done.
  by rewrite Hv.
Qed.

(** *** Electron *)

Lemma getTargets_electron_throw (T : object) (v : value) (err : error) :
  T !! "electron" = Some v → truthy v = true →
  electronVersionToChromeVersion v = Throw err →
  getTargets (Some T) = Throw err.
Proof.
  intros Hv Htr Herr. rewrite getTargets_eq. simpl.
  rewrite rewriteShorthands_unfold, (get_Some _ _ _ Hv), Htr, Herr. done.
Qed.

Lemma getTargets_electron_ok (T : object) (v c : value) :
  T !! "electron" = Some v → truthy v = true →
  electronVersionToChromeVersion v = Ok c →
  ∃ r, getTargets (Some T) = Ok r ∧ r !! "chrome" = Some c ∧
       r !! "electron" = None.
Proof.
  intros Hv Htr Hc.
  assert (rewriteShorthands T =
          Ok (delete "electron" (<["chrome" := c]> (resolveNode T)))) as Hops.
  { by rewrite rewriteShorthands_unfold, (get_Some _ _ _ Hv), Htr, Hc. }
  rewrite (getTargets_Ok_intro _ _ Hops). eexists. split; [done|].
  destruct (isBrowsersQueryValid _).
  - rewrite !mergeBrowsers_lookup, !decide_False by done.
    rewrite lookup_delete_eq, lookup_delete_ne, lookup_insert_eq by done.
    split; [done|].
    by rewrite lookup_fmap, getLowestVersions_not_electron.
  - by rewrite lookup_delete_eq, lookup_delete_ne, lookup_insert_eq.
Qed.

(** C6: for a target map with a truthy [electron] value, ["1"] is read
    as ["1.0"]; a value without a leading [major.minor] fails with
    "Electron version must be a semver version"; a [major.minor] for
    which the translation table holds nothing (or nothing truthy) fails
    with "... is either too old or too new"; and a [major.minor] that the
    table translates gives a result whose [chrome] is the translated
    value and that has no [electron] key.  So [{electron: "1"}] becomes
    [{chrome: <the table's value for "1.0">}], and [{electron: "99.9"}]
    fails when the table has no ["99.9"]. *)
Theorem getTargets_electron (T : object) (v : value) :
  T !! "electron" = Some v →
  truthy v = true →
  (match_major_minor (electronSemver v) = None →
   getTargets (Some T) = Throw ElectronNotSemver) ∧
  (∀ version, match_major_minor (electronSemver v) = Some version →
     truthy (get electronToChromium version) = false →
     getTargets (Some T) = Throw (ElectronTooOldOrNew version)) ∧
  (∀ version c, match_major_minor (electronSemver v) = Some version →
     electronToChromium !! version = Some c → truthy c = true →
     ∃ r, getTargets (Some T) = Ok r ∧ r !! "chrome" = Some c ∧
          r !! "electron" = None) ∧
  electronSemver (VStr "1") = "1.0" ∧
  (∀ c, electronToChromium !! "1.0" = Some c → truthy c = true →
     getTargets (Some {[ "electron" := VStr "1" ]}) = Ok {[ "chrome" := c ]}) ∧
  (electronToChromium !! "99.9" = None →
   getTargets (Some {[ "electron" := VStr "99.9" ]})
   = Throw (ElectronTooOldOrNew "99.9")).
Proof.
  intros Hv Htr. repeat split.
  - intros Hm. apply (getTargets_electron_throw T v); [done..|].
    unfold electronVersionToChromeVersion. fold (electronSemver v).
    by rewrite Hm.
  - intros version Hm Hc. apply (getTargets_electron_throw T v); [done..|].
    unfold electronVersionToChromeVersion. fold (electronSemver v).
    by rewrite Hm, Hc.
  - intros version c Hm Hc Hctr. apply (getTargets_electron_ok T v); [done..|].
    unfold electronVersionToChromeVersion. fold (electronSemver v).
    by rewrite Hm, (get_Some _ _ _ Hc), Hctr.
  - intros c Hc Hctr.
    assert (rewriteShorthands {[ "electron" := VStr "1" ]}
            = Ok {[ "chrome" := c ]}) as Hops.
    { rewrite rewriteShorthands_unfold.
      assert (get ({[ "electron" := VStr "1" ]} : object) "electron"
              = VStr "1") as -> by (unfold get; by rewrite lookup_singleton_eq).
      cbn [truthy String.eqb Ascii.eqb negb].
      unfold electronVersionToChromeVersion. cbn [ToString].
      change (match_major_minor _) with (Some "1.0"). cbv beta iota.
      rewrite (get_Some _ _ _ Hc), Hctr. simpl.
      assert (resolveNode {[ "electron" := VStr "1" ]}
              = ({[ "electron" := VStr "1" ]} : object)) as ->.
      { unfold resolveNode, get. by rewrite lookup_singleton_ne. }
      rewrite delete_insert_ne by done. rewrite delete_singleton_eq.
      by rewrite insert_empty. }
    rewrite (getTargets_Ok_intro _ _ Hops).
    unfold get. by rewrite lookup_singleton_ne.
  - intros Hc. apply (getTargets_electron_throw _ (VStr "99.9"));
      [by rewrite lookup_singleton_eq | done |].
    unfold electronVersionToChromeVersion. cbn [ToString].
    change (match_major_minor _) with (Some "99.9"). cbv beta iota.
    by rewrite (get_None _ _ Hc).
Qed.

(** *** The browsers query *)



(** *** Strings and numbers in the result *)

Lemma resolveNode_id (targetOps : object) :
  strict_eq_true (get targetOps "node")
  || strict_eq_string (get targetOps "node") "current" = false →
  resolveNode targetOps = targetOps.
Proof. intros Hn. unfold resolveNode. by rewrite Hn. Qed.

Lemma rewriteShorthands_node (T targetOps : object) :
  rewriteShorthands T = Ok targetOps →
  get targetOps "node" = get (resolveNode T) "node".
Proof.
  rewrite rewriteShorthands_unfold.
  destruct (truthy (get T "electron")).
  - destruct (electronVersionToChromeVersion _) as [chrome|]; [|done].
    intros [= <-]. unfold get.
    by rewrite lookup_delete_ne, lookup_insert_ne.
  - by intros [= <-].
Qed.

Lemma rewriteShorthands_idemp (T targetOps : object) :
  rewriteShorthands T = Ok targetOps →
  rewriteShorthands targetOps = Ok targetOps.
Proof.
  intros Hops. rewrite rewriteShorthands_unfold.
  rewrite (rewriteShorthands_electron _ _ Hops).
  rewrite resolveNode_id; [done|].
  rewrite (rewriteShorthands_node _ _ Hops). apply resolveNode_resolved.
Qed.

(** The result of [getTargets] has no valid browsers query left. *)
Lemma getTargets_browsers (T r : object) :
  getTargets (Some T) = Ok r →
  isBrowsersQueryValid (get r "browsers") = false.
Proof.
  intros (targetOps & Hops & ->)%getTargets_Ok_inv.
  destruct (isBrowsersQueryValid (get T "browsers")) eqn:Hvalid.
  - unfold get. rewrite mergeBrowsers_lookup, decide_True by done.
    by rewrite lookup_fmap, getLowestVersions_not_browsers.
  - unfold get in *. by rewrite (rewriteShorthands_browsers _ _ Hops).
Qed.

Lemma getTargets_electron_falsy (T r : object) :
  getTargets (Some T) = Ok r → truthy (get r "electron") = false.
Proof.
  intros (targetOps & Hops & ->)%getTargets_Ok_inv.
  pose proof (rewriteShorthands_electron _ _ Hops) as Hel.
  destruct (isBrowsersQueryValid (get T "browsers")); [|done].
  unfold get in *. rewrite mergeBrowsers_lookup, decide_False by done.
  destruct (targetOps !! "electron"); [done|].
  by rewrite lookup_fmap, getLowestVersions_not_electron.
Qed.

(** Normalizing a normalized map changes nothing. *)
Lemma getTargets_idemp (T r : object) :
  getTargets (Some T) = Ok r → getTargets (Some r) = Ok r.
Proof.
  intros Hr. pose proof (getTargets_browsers _ _ Hr) as Hb.
  pose proof (getTargets_electron_falsy _ _ Hr) as Hel.
  assert (rewriteShorthands r = Ok r) as Hops.
  { rewrite rewriteShorthands_unfold, Hel. rewrite resolveNode_id; [done|].
    apply getTargets_Ok_inv in Hr as (targetOps & Hops & ->).
    pose proof (rewriteShorthands_node _ _ Hops) as Hnode.
    pose proof (resolveNode_resolved T) as Hres. rewrite <- Hnode in Hres.
    destruct (isBrowsersQueryValid (get T "browsers")); [|done].
    unfold get in *. rewrite mergeBrowsers_lookup, decide_False by done.
    destruct (targetOps !! "node"); [done|].
    rewrite lookup_fmap. by destruct (getLowestVersions _ !! "node"). }
  by rewrite (getTargets_Ok_intro _ _ Hops), Hb.
Qed.


(** C8, as amended: a result of [getTargets] has no truthy [electron]
    value and no [browsers] value that is a string or an array.  It has
    no [electron] key, no [browsers] key and numbers for all its values
    when the raw map is well formed: every value under another key is a
    number (or [node] is [true] or ["current"]), [electron] is truthy
    if present, [browsers] is a string or an array if present, and the
    translation table holds numbers.  Other values come out as they
    went in, strings included. *)
Theorem getTargets_result_shape (T r : object) :
  getTargets (Some T) = Ok r →
  truthy (get r "electron") = false ∧
  isBrowsersQueryValid (get r "browsers") = false ∧
  ((∀ k v, T !! k = Some v → k ≠ "electron" → k ≠ "browsers" →
      typeof_number v = true ∨
      k = "node" ∧
      strict_eq_true v || strict_eq_string v "current" = true) →
   (∀ v, T !! "electron" = Some v → truthy v = true) →
   (∀ v, T !! "browsers" = Some v → isBrowsersQueryValid v = true) →
   (∀ version c, electronToChromium !! version = Some c →
      typeof_number c = true) →
   r !! "electron" = None ∧ r !! "browsers" = None ∧
   ∀ k v, r !! k = Some v → typeof_number v = true).
Proof.
  intros Hr. split; [by eapply getTargets_electron_falsy|].
  split; [by eapply getTargets_browsers|].
  intros Hnum Hel Hbr Htable.
  pose proof (getTargets_electron_falsy _ _ Hr) as Hrel.
  pose proof (getTargets_browsers _ _ Hr) as Hrbr.
  apply getTargets_Ok_inv in Hr as (targetOps & Hops & Hres).
  assert (targetOps !! "electron" = None) as Hops_el.
  { rewrite rewriteShorthands_unfold in Hops.
    destruct (truthy (get T "electron")) eqn:Htr.
    - destruct (electronVersionToChromeVersion _); [|done].
      injection Hops as <-. by rewrite lookup_delete_eq.
    - injection Hops as <-. rewrite resolveNode_lookup_ne by done.
      destruct (T !! "electron") as [v|] eqn:Hv; [|done].
      rewrite (get_Some _ _ _ Hv), (Hel v eq_refl) in Htr. done. }
  assert (∀ k v, targetOps !! k = Some v → k ≠ "browsers" →
                 typeof_number v = true) as Hops_num.
  { intros k v Hv Hk.
    destruct (decide (k = "electron")) as [->|Hke]; [congruence|].
    assert (∀ v, resolveNode T !! k = Some v → typeof_number v = true) as Hrn.
    { intros v'. unfold resolveNode.
      destruct (strict_eq_true (get T "node")
                || strict_eq_string (get T "node") "current") eqn:Hn.
      - destruct (decide (k = "node")) as [->|Hkn].
        + rewrite lookup_insert_eq. by intros [= <-].
        + rewrite lookup_insert_ne by done. intros Hv'.
          destruct (Hnum k v' Hv' Hke Hk) as [?|[? _]]; done.
      - intros Hv'. destruct (Hnum k v' Hv' Hke Hk) as [?|[-> Hcur]]; [done|].
        rewrite (get_Some _ _ _ Hv') in Hn. congruence. }
    rewrite rewriteShorthands_unfold in Hops.
    destruct (truthy (get T "electron")).
    - destruct (electronVersionToChromeVersion _) as [chrome|] eqn:Hc; [|done].
      injection Hops as <-. rewrite lookup_delete_ne in Hv by done.
      destruct (decide (k = "chrome")) as [->|Hkc].
      + rewrite lookup_insert_eq in Hv. injection Hv as <-.
        apply electronVersionToChromeVersion_Ok in Hc as [_ [version Hc]].
        by eapply Htable.
      + rewrite lookup_insert_ne in Hv by done. by apply Hrn.
    - injection Hops as <-. by apply Hrn. }
  destruct (isBrowsersQueryValid (get T "browsers")) eqn:Hvalid; subst r.
  - split; [|split].
    + rewrite mergeBrowsers_lookup, decide_False, Hops_el by done.
      by rewrite lookup_fmap, getLowestVersions_not_electron.
    + rewrite mergeBrowsers_lookup, decide_True by done.
      by rewrite lookup_fmap, getLowestVersions_not_browsers.
    + intros k v. rewrite mergeBrowsers_lookup.
      destruct (decide (k = "browsers")) as [->|Hk].
      * by rewrite lookup_fmap, getLowestVersions_not_browsers.
      * destruct (targetOps !! k) as [v'|] eqn:Hv'.
        -- intros [= <-]. by eapply Hops_num.
        -- rewrite lookup_fmap.
           destruct (getLowestVersions _ !! k); by intros [= <-].
  - assert (targetOps !! "browsers" = None) as Hops_br.
    { rewrite (rewriteShorthands_browsers _ _ Hops).
      destruct (T !! "browsers") as [v|] eqn:Hv; [|done].
      rewrite (get_Some _ _ _ Hv), (Hbr v eq_refl) in Hvalid. done. }
    split; [done|]. split; [done|].
    intros k v Hv. apply (Hops_num k v Hv). intros ->. congruence.
Qed.

(** *** The minimum per browser *)

(** C4: for a list of releases as the resolver gives them (the name of
    a release is a browser name, and no version that is kept is 0),
    [getLowestVersions] keeps the releases whose name is a key of
    [browserNameMap] and whose version parses as an integer, and maps
    each normalized name that is kept to the minimum of its kept
    versions; a name with no kept release is absent.  In particular the
    releases ["chrome 50"], ["chrome 60"], ["ie 8"] give
    [{chrome: 50, ie: 8}], also through [getTargets]. *)
Theorem getLowestVersions_minimum (browsers : list string) :
  (∀ browser, browser ∈ browsers → browser_named browser) →
  (∀ browser name version, browser ∈ browsers →
     kept browser name version → number_truthy version = true) →
  (∀ name,
     match getLowestVersions browsers !! name with
     | None =>
         ∀ browser version, browser ∈ browsers → ¬ kept browser name version
     | Some lowest =>
         (∃ browser, browser ∈ browsers ∧ kept browser name lowest) ∧
         (∀ browser version, browser ∈ browsers →
            kept browser name version → number_ge version lowest = true)
     end) ∧
  getLowestVersions ["chrome 50"; "chrome 60"; "ie 8"]
  = <["chrome" := of_Z 50]> {[ "ie" := of_Z 8 ]} ∧
  (browserslist (VArr ["chrome 50"; "chrome 60"; "ie 8"])
   = ["chrome 50"; "chrome 60"; "ie 8"] →
   getTargets
     (Some {[ "browsers" := VArr ["chrome 50"; "chrome 60"; "ie 8"] ]})
   = Ok (<["chrome" := VNum (of_Z 50)]> {[ "ie" := VNum (of_Z 8) ]})).
Proof.
  intros Hnamed Hnz. split; [|split; [by vm_compute|]].
  - assert (lowestOf browsers (getLowestVersions browsers)) as Hlow.
    { apply lowestOf_getLowestVersions. intros b n v Hb Hs.
      apply (Hnz b n v Hb). by apply survives_kept; [apply Hnamed|]. }
    intros name. specialize (Hlow name).
    destruct (getLowestVersions browsers !! name) as [lowest|].
    + destruct Hlow as [(b & Hb & Hs) Hge]. split.
      * exists b. split; [done|]. by apply survives_kept; [apply Hnamed|].
      * intros b' v' Hb' Hk. apply (Hge b' v' Hb').
        by apply survives_kept; [apply Hnamed|].
    + intros b v Hb Hk. apply (Hlow b v Hb).
      by apply survives_kept; [apply Hnamed|].
  - intros Hquery.
    assert (rewriteShorthands
              {[ "browsers" := VArr ["chrome 50"; "chrome 60"; "ie 8"] ]}
            = Ok {[ "browsers" := VArr ["chrome 50"; "chrome 60"; "ie 8"] ]})
      as Hops by (vm_compute; reflexivity).
    rewrite (getTargets_Ok_intro _ _ Hops).
    assert (get {[ "browsers" := VArr ["chrome 50"; "chrome 60"; "ie 8"] ]}
              "browsers"
            = VArr ["chrome 50"; "chrome 60"; "ie 8"]) as ->
      by (vm_compute; reflexivity).
    cbn [isBrowsersQueryValid]. rewrite Hquery.
    vm_compute. reflexivity.
Qed.

End TargetNormalizer.

(** ** The preset builder: the order of the result *)

Lemma indexOf_absent (l : list string) (x : string) :
  (indexOf l x =? -1)%Z = true ↔ x ∉ l.
Proof.
  induction l as [|y l IH]; simpl.
  - split; [intros _; apply not_elem_of_nil | done].
  - rewrite not_elem_of_cons. destruct (String.eqb_spec y x) as [->|Hne].
    + split; [done | by intros [? _]].
    + destruct (indexOf l x =? -1)%Z eqn:Hi.
      * split; [|done]. intros _. split; [done | by apply IH].
      * split; [|intros [_ ?%IH]; done].
        intros Hz. apply Z.eqb_eq in Hz. apply Z.eqb_neq in Hi.
        assert (-1 ≤ indexOf l x)%Z; [|lia].
        clear. induction l as [|z l IH]; simpl; [done|].
        destruct (String.eqb z x); [done|].
        destruct (indexOf l x =? -1)%Z; lia.
Qed.

Lemma indexOf_lower (l : list string) (x : string) : (-1 ≤ indexOf l x)%Z.
Proof.
  induction l as [|z l IH]; simpl; [done|].
  destruct (String.eqb z x); [done|].
  destruct (indexOf l x =? -1)%Z; lia.
Qed.

Lemma indexOf_present (l : list string) (x : string) :
  (0 <=? indexOf l x)%Z = true ↔ x ∈ l.
Proof.
  pose proof (indexOf_lower l x) as Hlow.
  pose proof (indexOf_absent l x) as Habs.
  rewrite Z.leb_le. rewrite Z.eqb_eq in Habs.
  destruct (decide (x ∈ l)) as [Hin|Hout].
  - split; [done|]. intros _.
    destruct (decide (indexOf l x = -1)%Z) as [Heq|?]; [|lia].
    by apply Habs in Heq.
  - split; [|done]. intros Hpos. apply Habs in Hout. lia.
Qed.

Lemma elem_of_filter_not_in (excluded l : list string) (x : string) :
  x ∈ List.filter (λ name, bool_decide (name ∉ excluded)) l ↔
  x ∈ l ∧ x ∉ excluded.
Proof.
  rewrite (list_elem_of_In (List.filter _ _) x), filter_In.
  by rewrite <- list_elem_of_In, bool_decide_eq_true.
Qed.

Section PresetBuilder.
Context `{Host} `{Data}.
Context {Options : Type} (normalizeOptions : Options → result ValidatedOptions).

Lemma filter_indexOf (excluded l : list string) :
  List.filter (λ plugin, (indexOf excluded plugin =? -1)%Z) l
  = List.filter (λ name, bool_decide (name ∉ excluded)) l.
Proof.
  apply filter_ext. intros name.
  destruct (indexOf excluded name =? -1)%Z eqn:Hi.
  - apply indexOf_absent in Hi. by rewrite bool_decide_eq_true_2.
  - rewrite bool_decide_eq_false_2; [done|].
    intros Hout%indexOf_absent. congruence.
Qed.

Lemma indexOf_bool_decide (l : list string) (x : string) :
  (0 <=? indexOf l x)%Z = bool_decide (x ∈ l).
Proof.
  destruct (0 <=? indexOf l x)%Z eqn:Hi.
  - apply indexOf_present in Hi. by rewrite bool_decide_eq_true_2.
  - rewrite bool_decide_eq_false_2; [done|].
    intros Hin%indexOf_present. congruence.
Qed.

Lemma buildPreset_unfold (opts : Options) (st : Session) :
  buildPreset normalizeOptions opts st =
  match normalizeOptions opts with
  | Throw e => (Throw e, st)
  | Ok v =>
      match getTargets (targets v) with
      | Throw e => (Throw e, st)
      | Ok T =>
          match requiredNames T pluginList with
          | Throw e => (Throw e, st)
          | Ok transformations =>
              match (if useBuiltIns v then requiredNames T builtInsList
                     else Ok []) with
              | Throw e => (Throw e, st)
              | Ok required =>
                  (Ok (modulePushed v ++ transformUnits v transformations
                       ++ polyfillUnit v transformations required)%list,
                   debugLog v T transformations
                     (if useBuiltIns v
                      then Some (selectedPolyfills v required) else None) st)
              end
          end
      end
  end.
Proof.
  unfold buildPreset.
  destruct (normalizeOptions opts) as [v|]; [|done]. simpl.
  destruct (getTargets (targets v)) as [T|]; [|done]. simpl.
  destruct (requiredNames T pluginList) as [transformations|]; [|done]. simpl.
  unfold modulePushed, transformUnits, polyfillUnit, selectedTransformations,
    selectedPolyfills, pluginNames, builtInNames.
  assert (∀ loose,
    match
      match moduleType v with
      | Some moduleType0 => moduleTransformations !! moduleType0
      | None => None
      end
    with
    | Some modulePlugin =>
        if negb (String.eqb modulePlugin "")
        then [(require_babel_plugin modulePlugin, Loose loose)]
        else []
    | None => []
    end =
    match moduleType v ≫= (moduleTransformations !!.) with
    | Some name =>
        if negb (String.eqb name "")
        then [(require_babel_plugin name, Loose loose)]
        else []
    | None => []
    end) as Hmod.
  { intros l. by destruct (moduleType v). }
  destruct (useBuiltIns v) eqn:Hb.
  - destruct (requiredNames T builtInsList) as [required|]; [|done]. simpl.
    rewrite Hb, !filter_indexOf, indexOf_bool_decide.
    rewrite (Hmod (loose v)). by rewrite <- app_assoc.
  - simpl. rewrite Hb, !filter_indexOf.
    rewrite (Hmod (loose v)). by rewrite app_nil_r.
Qed.

Lemma elem_of_pluginNames (opts : list string) (x : string) :
  x ∈ pluginNames opts ↔ x ∈ opts ∧ match_builtIn x = false.
Proof.
  unfold pluginNames. rewrite !list_elem_of_In, filter_In.
  by rewrite negb_true_iff.
Qed.

Lemma elem_of_builtInNames (opts : list string) (x : string) :
  x ∈ builtInNames opts ↔ x ∈ opts ∧ match_builtIn x = true.
Proof. unfold builtInNames. by rewrite !list_elem_of_In, filter_In. Qed.

(** The debug output is printed at most once per session. *)
Lemma debugLog_latched (v : ValidatedOptions) (T : object)
    (transformations : list string) (polyfills : option (list string))
    (st : Session) :
  hasBeenLogged st = true →
  debugLog v T transformations polyfills st = st.
Proof. intros Hl. unfold debugLog. by rewrite Hl, andb_false_r. Qed.

Lemma debugLog_latches (v : ValidatedOptions) (T : object)
    (transformations : list string) (polyfills : option (list string))
    (st : Session) :
  debug v = true →
  hasBeenLogged (debugLog v T transformations polyfills st) = true.
Proof.
  intros Hd. unfold debugLog. rewrite Hd.
  by destruct (hasBeenLogged st) eqn:Hl.
Qed.

Lemma buildPreset_Ok_inv (opts : Options) (st st' : Session)
    (units : list (plugin_module * plugin_options)) (v : ValidatedOptions) :
  normalizeOptions opts = Ok v →
  buildPreset normalizeOptions opts st = (Ok units, st') →
  ∃ T transformations required,
    getTargets (targets v) = Ok T ∧
    requiredNames T pluginList = Ok transformations ∧
    (useBuiltIns v = true → requiredNames T builtInsList = Ok required) ∧
    units = (modulePushed v ++ transformUnits v transformations
             ++ polyfillUnit v transformations required)%list ∧
    st' = debugLog v T transformations
            (if useBuiltIns v then Some (selectedPolyfills v required) else None)
            st.
Proof.
  intros Hv. rewrite buildPreset_unfold, Hv.
  destruct (getTargets (targets v)) as [T|] eqn:HT; [|done].
  destruct (requiredNames T pluginList) as [transformations|] eqn:Htr; [|done].
  destruct (useBuiltIns v) eqn:Hb.
  - destruct (requiredNames T builtInsList) as [required|] eqn:Hreq; [|done].
    intros [= <- <-]. by exists T, transformations, required.
  - intros [= <- <-]. by exists T, transformations, [].
Qed.

(** C2: when the options validate and the resolution of the targets
    and of the required names succeeds, [buildPreset] returns, in this
    order: the module transform with [{loose}], present exactly when
    [moduleType] is not [false] and the module-transform table has an
    entry for it; every selected transformation (exclusion, then
    inclusion) with [{loose}]; and, exactly when [useBuiltIns] is set,
    one polyfill unit with the selected polyfill names and with
    [regenerator] true exactly when ["transform-regenerator"] is among
    the selected transformations.  The base of the selection is the
    names of [pluginList] that [isPluginRequired] answers [true] for.
    The names of the module-transform table are taken to be non-empty. *)
Theorem buildPreset_order (opts : Options) (st : Session)
    (v : ValidatedOptions) (T : object) (transformations required : list string) :
  normalizeOptions opts = Ok v →
  getTargets (targets v) = Ok T →
  requiredNames T pluginList = Ok transformations →
  (useBuiltIns v = true → requiredNames T builtInsList = Ok required) →
  (∀ moduleType name,
     moduleTransformations !! moduleType = Some name → name ≠ "") →
  (∃ st',
     buildPreset normalizeOptions opts st =
     (Ok (match moduleType v ≫= (moduleTransformations !!.) with
          | Some name => [(require_babel_plugin name, Loose (loose v))]
          | None => []
          end
          ++ ((λ name, (require_babel_plugin name, Loose (loose v)))
                <$> selectedTransformations v transformations)
          ++ (if useBuiltIns v then
                [(transformPolyfillRequirePlugin,
                  Polyfills (Some (selectedPolyfills v required))
                    (bool_decide
                       ("transform-regenerator"
                        ∈ selectedTransformations v transformations)))]
              else []))%list,
      st')) ∧
  (∀ name,
     name ∈ transformations ↔
     name ∈ pluginList.*1 ∧
     isPluginRequired T (default ∅ (table_get pluginList name)) = Ok true).
Proof.
  intros Hv HT Htr Hreq Hnames.
  split; [|by apply (filterM_Ok_inv _ _ _ Htr)].
  rewrite buildPreset_unfold, Hv, HT, Htr.
  assert (modulePushed v =
          match moduleType v ≫= (moduleTransformations !!.) with
          | Some name => [(require_babel_plugin name, Loose (loose v))]
          | None => []
          end) as Hmod.
  { unfold modulePushed. destruct (moduleType v) as [m|]; [|done]. simpl.
    destruct (moduleTransformations !! m) as [name|] eqn:Hm; [|done].
    apply Hnames in Hm. apply String.eqb_neq in Hm. by rewrite Hm. }
  destruct (useBuiltIns v) eqn:Hb.
  - rewrite (Hreq eq_refl). eexists. unfold polyfillUnit. rewrite Hb, Hmod.
    reflexivity.
  - eexists. unfold polyfillUnit. rewrite Hb, Hmod. reflexivity.
Qed.

(** C3: a name that is in both the include list and the exclude list is
    in the final list.  Whenever [buildPreset] returns, its list is the
    module unit, then the units of the required plugins that the
    exclude list lets through followed by those of the included
    plugins, then, with [useBuiltIns], the polyfill unit, whose names
    are the required and default built-ins that the exclude list lets
    through followed by the included ones.  The exclusion removes the
    name from the base, the inclusion appends it afterwards: a plugin
    name that is both included and excluded has its unit in the
    result, and a built-in name that is both is in the polyfill list
    when [useBuiltIns] is set. *)
Theorem include_wins (opts : Options) (st st' : Session)
    (units : list (plugin_module * plugin_options))
    (v : ValidatedOptions) (x : string) :
  normalizeOptions opts = Ok v →
  buildPreset normalizeOptions opts st = (Ok units, st') →
  x ∈ include v →
  x ∈ exclude v →
  ∃ T transformations required passed passedBuiltIns,
    getTargets (targets v) = Ok T ∧
    requiredNames T pluginList = Ok transformations ∧
    (useBuiltIns v = true → requiredNames T builtInsList = Ok required) ∧
    passed = List.filter (λ name, bool_decide (name ∉ pluginNames (exclude v)))
               transformations ∧
    passedBuiltIns =
      List.filter (λ name, bool_decide (name ∉ builtInNames (exclude v)))
        (required ++ defaultInclude) ∧
    units =
      (modulePushed v
       ++ ((λ name, (require_babel_plugin name, Loose (loose v)))
             <$> (passed ++ pluginNames (include v)))
       ++ (if useBuiltIns v then
             [(transformPolyfillRequirePlugin,
               Polyfills (Some (passedBuiltIns ++ builtInNames (include v)))
                 (bool_decide
                    ("transform-regenerator"
                     ∈ (passed ++ pluginNames (include v))%list)))]
           else []))%list ∧
    (match_builtIn x = false →
     (x ∉ passed) ∧ x ∈ pluginNames (include v) ∧
     (require_babel_plugin x, Loose (loose v)) ∈ units) ∧
    (match_builtIn x = true →
     (x ∉ passedBuiltIns) ∧ x ∈ builtInNames (include v) ∧
     (useBuiltIns v = true →
      ∃ polyfills regenerator,
        (transformPolyfillRequirePlugin, Polyfills (Some polyfills) regenerator)
        ∈ units ∧ x ∈ polyfills)).
Proof.
  intros Hv Hbuild Hin Hex.
  destruct (buildPreset_Ok_inv _ _ _ _ _ Hv Hbuild)
    as (T & transformations & required & HT & Htr & Hreq & -> & _).
  exists T, transformations, required. eexists _, _.
  split; [done|]. split; [done|]. split; [done|].
  split; [reflexivity|]. split; [reflexivity|]. split; [reflexivity|].
  split.
  - intros Hp. assert (x ∈ pluginNames (include v)) as Hinc
      by (by apply elem_of_pluginNames).
    split; [|split; [done|]].
    + intros [_ Hno]%elem_of_filter_not_in. apply Hno.
      by apply elem_of_pluginNames.
    + apply elem_of_app. right. apply elem_of_app. left.
      apply list_elem_of_fmap. exists x. split; [done|].
      apply elem_of_app. by right.
  - intros Hp. assert (x ∈ builtInNames (include v)) as Hinc
      by (by apply elem_of_builtInNames).
    split; [|split; [done|]].
    + intros [_ Hno]%elem_of_filter_not_in. apply Hno.
      by apply elem_of_builtInNames.
    + intros Hb. eexists _, _. split.
      * apply elem_of_app. right. apply elem_of_app. right.
        unfold polyfillUnit. rewrite Hb.
        apply list_elem_of_singleton. reflexivity.
      * unfold selectedPolyfills. apply elem_of_app. by right.
Qed.

End PresetBuilder.

(** ** Further properties of the target normalizer *)

Section NormalizerProperties.
Context `{Host} `{Data}.

(** X1: a normalized map is a fixed point of [getTargets]: normalizing
    the result of a successful normalization returns it unchanged. *)
Theorem getTargets_idempotent (T r : object) :
  getTargets (Some T) = Ok r → getTargets (Some r) = Ok r.
Proof. apply getTargets_idemp. Qed.

(** X2: an Electron failure comes first: when [electron] is truthy and
    its translation fails, [getTargets] fails with the error of the
    translation, whatever else the map holds, a browsers query
    included; with no argument it returns the empty map. *)
Theorem getTargets_failure (T : object) (v : value) (err : error) :
  T !! "electron" = Some v →
  truthy v = true →
  electronVersionToChromeVersion v = Throw err →
  getTargets (Some T) = Throw err ∧ getTargets None = Ok ∅.
Proof.
  intros Hv Htr Herr. split; [|reflexivity].
  by apply (getTargets_electron_throw T v).
Qed.

(** X3: [node: true] and [node: "current"] come out as the version of
    the running node, with or without a browsers query. *)
Theorem getTargets_node_current (T r : object) :
  strict_eq_true (get T "node")
  || strict_eq_string (get T "node") "current" = true →
  getTargets (Some T) = Ok r →
  r !! "node" = Some (VNum getCurrentNodeVersion).
Proof.
  intros Hnode (targetOps & Hops & ->)%getTargets_Ok_inv.
  assert (targetOps !! "node" = Some (VNum getCurrentNodeVersion)) as Hn.
  { assert (resolveNode T !! "node" = Some (VNum getCurrentNodeVersion)) as Hr.
    { unfold resolveNode. rewrite Hnode. apply lookup_insert_eq. }
    rewrite rewriteShorthands_unfold in Hops.
    destruct (truthy (get T "electron")).
    - destruct (electronVersionToChromeVersion _) as [chrome|]; [|done].
      injection Hops as <-.
      by rewrite lookup_delete_ne, lookup_insert_ne.
    - by injection Hops as <-. }
  destruct (isBrowsersQueryValid _); [by apply merged_lookup | done].
Qed.


(** X5: [mergeBrowsers] is the target map without its [browsers] key,
    laid over the query map: a key of the target wins, and a [browsers]
    key of the query map itself is kept. *)
Theorem mergeBrowsers_overlay (fromQuery fromTarget : object) :
  mergeBrowsers fromQuery fromTarget = delete "browsers" fromTarget ∪ fromQuery ∧
  mergeBrowsers fromQuery fromTarget !! "browsers" = fromQuery !! "browsers" ∧
  ∀ k, k ≠ "browsers" → is_Some (fromTarget !! k) →
       mergeBrowsers fromQuery fromTarget !! k = fromTarget !! k.
Proof.
  split; [apply mergeBrowsers_union|]. split.
  - by rewrite mergeBrowsers_lookup, decide_True.
  - intros k Hk [v Hv]. by rewrite mergeBrowsers_lookup, decide_False, Hv.
Qed.

End NormalizerProperties.

(** ** Further properties of the browsers query *)

Section QueryProperties.

(** X6: a name is a key of the result of [getLowestVersions] exactly
    when some release survives under it, and its value is the parsed
    version of one of these releases, never NaN.  This holds for every
    list of releases. *)
Theorem getLowestVersions_sound (browsers : list string) (name : string) :
  (is_Some (getLowestVersions browsers !! name) ↔
   ∃ browser version, browser ∈ browsers ∧ survives browser name version) ∧
  (∀ n, getLowestVersions browsers !! name = Some n →
     (∃ browser, browser ∈ browsers ∧ survives browser name n) ∧
     isNaN n = false).
Proof.
  rewrite getLowestVersions_eq.
  induction browsers as [|x prefix IH] using rev_ind.
  { simpl. rewrite lookup_empty. split; [|done]. split.
    - by intros [? ?].
    - by intros (? & ? & ?%elem_of_nil & _). }
  rewrite foldl_snoc. destruct IH as [IHdom IHval].
  set (all := foldl lowestStep ∅ prefix) in *.
  assert (x ∈ (prefix ++ [x])%list) as Hlast
    by (apply elem_of_app; right; by apply list_elem_of_singleton).
  destruct (survives_or_not x) as [(n0 & v0 & Hx)|Hno].
  - rewrite (lowestStep_survivor _ _ _ _ Hx).
    pose proof (survives_number _ _ _ Hx) as Hv0.
    destruct (decide (name = n0)) as [->|Hne].
    + rewrite lookup_insert_eq. split.
      * split; [|by eauto]. intros _. by exists x, v0.
      * intros n [= <-].
        unfold lowestSoFar. destruct (all !! n0) as [m|] eqn:Hm.
        -- destruct (IHval m eq_refl) as [(b & Hb & Hbm) Hm0].
           destruct (number_truthy m).
           ++ rewrite (Math_min_eq _ _ Hm0 Hv0).
              destruct (number_lt v0 m).
              ** split; [by exists x | done].
              ** split; [|done]. exists b. split; [|done].
                 apply elem_of_app. by left.
           ++ rewrite (Math_min_PosInf_l _ Hv0). split; [by exists x | done].
        -- rewrite (Math_min_PosInf_l _ Hv0). split; [by exists x | done].
    + rewrite lookup_insert_ne by done. split.
      * rewrite IHdom. split.
        -- intros (b & v & Hb & Hs). exists b, v. split; [|done].
           apply elem_of_app. by left.
        -- intros (b & v & [Hb|Hb%list_elem_of_singleton]%elem_of_app & Hs).
           ++ eauto.
           ++ subst b. by destruct (survives_functional _ _ _ _ _ Hs Hx).
      * intros n Hn. destruct (IHval n Hn) as [(b & Hb & Hs) Hz].
        split; [|done]. exists b. split; [|done]. apply elem_of_app. by left.
  - rewrite (lowestStep_dropped _ _ Hno). split.
    + rewrite IHdom. split.
      * intros (b & v & Hb & Hs). exists b, v. split; [|done].
        apply elem_of_app. by left.
      * intros (b & v & [Hb|Hb%list_elem_of_singleton]%elem_of_app & Hs).
        -- eauto.
        -- subst b. by destruct (Hno name v).
    + intros n Hn. destruct (IHval n Hn) as [(b & Hb & Hs) Hz].
      split; [|done]. exists b. split; [|done]. apply elem_of_app. by left.
Qed.

(** X7: the order in which the resolver lists the releases does not
    matter: two lists that are permutations of each other, with no
    surviving version 0, give the same map. *)
Theorem getLowestVersions_permutation (browsers browsers' : list string) :
  browsers ≡ₚ browsers' →
  (∀ browser name version, browser ∈ browsers →
     survives browser name version → number_truthy version = true) →
  getLowestVersions browsers = getLowestVersions browsers'.
Proof.
  intros Hperm Hnz.
  assert (∀ b, b ∈ browsers ↔ b ∈ browsers') as Hmem
    by (intros b; by rewrite Hperm).
  assert (∀ browser name version, browser ∈ browsers' →
            survives browser name version → number_truthy version = true)
    as Hnz' by (intros b n v ?%Hmem; by apply Hnz).
  pose proof (lowestOf_getLowestVersions _ Hnz) as Hlow.
  pose proof (lowestOf_getLowestVersions _ Hnz') as Hlow'.
  apply map_eq. intros name. specialize (Hlow name). specialize (Hlow' name).
  destruct (getLowestVersions browsers !! name) as [m|],
           (getLowestVersions browsers' !! name) as [m'|]; [| | |done].
  - destruct Hlow as [(b & Hb & Hs) Hge], Hlow' as [(b' & Hb' & Hs') Hge'].
    pose proof (Hge' b m (proj1 (Hmem b) Hb) Hs) as H1.
    pose proof (Hge b' m' (proj2 (Hmem b') Hb') Hs') as H2.
    f_equal. apply number_ge_antisym; [by eapply survives_whole..|done|done].
  - destruct Hlow as [(b & Hb & Hs) _].
    by destruct (Hlow' b m (proj1 (Hmem b) Hb)).
  - destruct Hlow' as [(b' & Hb' & Hs') _].
    by destruct (Hlow b' m' (proj2 (Hmem b') Hb')).
Qed.

End QueryProperties.

(** ** Further properties of the requirement evaluator *)

Section EvaluatorProperties.
Context `{Host} `{Data}.

(** X8: with a truthy [browsers] property, [isPluginRequired] answers
    as it does on the normalized map, and fails as [getTargets] does. *)
Theorem isPluginRequired_normalizes_first (T : object) (C : capability) :
  truthy (get T "browsers") = true →
  isPluginRequired T C = (r ← getTargets (Some T); isPluginRequired r C).
Proof.
  intros Htr. rewrite isPluginRequired_eq, Htr.
  destruct (getTargets (Some T)) as [r|e] eqn:Hr; [|done]. simpl.
  rewrite (isPluginRequired_eq r).
  destruct (truthy (get r "browsers")); [|done].
  by rewrite (getTargets_idemp _ _ Hr).
Qed.

(** X9: an environment [e] of [T] for which [C[e]] is undefined (no
    entry of [C], and no property that [C] inherits) makes the feature
    required, whatever its version is, provided no environment of [T]
    has a string version against a truthy [C[e']]. *)
Theorem isPluginRequired_unknown_environment (T : object) (C : capability)
    (e : string) (v : value) :
  T !! "browsers" = None →
  T !! e = Some v →
  plain_get C e = None →
  (∀ e' s p, T !! e' = Some (VStr s) → plain_get C e' = Some p →
     version_truthy p = false) →
  isPluginRequired T C = Ok true.
Proof.
  intros Hnb He Hc Hstr.
  apply (isPluginRequired_by T C e v); [done..| |done].
  apply callback_true. by left.
Qed.

(** X10: more targets, more requirements: a feature required for a
    non-empty target map is required for every larger map (without a
    [browsers] key and without strings).  The empty map is apart: it
    requires everything. *)
Theorem isPluginRequired_more_targets (T T' : object) (C : capability) :
  T ⊆ T' →
  T ≠ ∅ →
  T' !! "browsers" = None →
  (∀ e v, T' !! e = Some v → typeof_string v = false) →
  isPluginRequired T C = Ok true →
  isPluginRequired T' C = Ok true.
Proof.
  intros Hsub Hne Hnb Hnum Hreq.
  assert (T !! "browsers" = None) as Hnb0.
  { destruct (T !! "browsers") as [v|] eqn:Hv; [|done].
    by rewrite (lookup_weaken _ _ _ _ Hv Hsub) in Hnb. }
  assert (∀ e v, T !! e = Some v → typeof_string v = false) as Hnum0.
  { intros e v Hv. apply (Hnum e). by eapply lookup_weaken. }
  destruct (isPluginRequired_decides T C Hnb0 Hnum0) as (b & Hb & Hiff).
  destruct (isPluginRequired_decides T' C Hnb Hnum) as (b' & -> & Hiff').
  f_equal. apply Hiff'. right.
  assert (b = true) as Hbt by congruence.
  apply Hiff in Hbt as [?|(e & v & Hv & Hcase)]; [done|].
  exists e, v. split; [by eapply lookup_weaken | done].
Qed.

(** X11: for a single numeric target the decision is the strict
    comparison with the implementing version: a target at exactly that
    version is not required. *)
Theorem isPluginRequired_single_target (e : string) (n c : number)
    (C : capability) :
  e ≠ "browsers" →
  C !! e = Some c →
  number_truthy c = true →
  isPluginRequired {[ e := VNum n ]} C = Ok (number_lt n c).
Proof.
  intros He Hc Htr.
  rewrite isPluginRequired_plain
    by (unfold get; by rewrite lookup_singleton_ne).
  unfold Object_keys. rewrite map_to_list_singleton. simpl.
  unfold isPluginRequired_callback.
  rewrite (proj2 (plain_get_Own C e c) Hc). simpl. rewrite Htr. simpl.
  unfold get. rewrite lookup_singleton_eq. simpl.
  unfold js_lt. simpl. by destruct (number_lt n c).
Qed.

End EvaluatorProperties.

(** ** Further properties of the Electron translation and of the
    partition of the overrides *)

Section OverrideProperties.
Context `{Host} `{Data}.

Lemma span_digits_append (ds rest : string) :
  span_digits ds = (ds, "") → starts_with_digit rest = false →
  span_digits (ds ++ rest) = (ds, rest).
Proof.
  intros Hds Hrest. induction ds as [|c ds IH].
  - change ("" ++ rest)%string with rest.
    destruct rest as [|d rest]; [done|]. simpl in *. by rewrite Hrest.
  - change (String c ds ++ rest)%string with (String c (ds ++ rest)).
    simpl in *. destruct (is_digit c); [|done].
    destruct (span_digits ds) as [ds' rest'].
    injection Hds as -> ->. by rewrite IH.
Qed.

Lemma all_digits_span (s : string) :
  all_digits s = true → span_digits s = (s, "") ∧ s ≠ "".
Proof.
  unfold all_digits. pose proof (span_digits_append s "") as Happ.
  destruct (span_digits s) as [ds rest] eqn:Hs.
  destruct ds as [|c ds]; [done|]. destruct rest; [|done]. intros _.
  assert (s = String c ds) as ->; [|done].
  clear Happ. revert c ds Hs. induction s as [|d s IH]; intros c ds; simpl.
  - done.
  - destruct (is_digit d); [|done].
    destruct (span_digits s) as [ds' rest'] eqn:Hs'.
    intros [= -> -> ->]. destruct ds as [|c' ds].
    + destruct s as [|d' s]; [done|]. simpl in Hs'.
      destruct (is_digit d'); [|done]. by destruct (span_digits s).
    + by rewrite (IH c' ds eq_refl).
Qed.

Lemma match_major_minor_complete (major minor rest : string) :
  all_digits major = true → all_digits minor = true →
  starts_with_digit rest = false →
  match_major_minor (major ++ "." ++ minor ++ rest)
  = Some (major ++ "." ++ minor)%string.
Proof.
  intros [Hmajor Hne]%all_digits_span [Hminor Hne']%all_digits_span Hrest.
  unfold match_major_minor.
  rewrite (span_digits_append major) by done.
  destruct major as [|c major]; [done|].
  change ("." ++ minor ++ rest)%string with (String "." (minor ++ rest)).
  cbv beta iota. rewrite (span_digits_append minor) by done.
  by destruct minor.
Qed.

(** X12: the translation looks at the leading [major.minor] of the
    version string and at nothing else: for digits [major] and [minor]
    and a [rest] that does not go on with a digit, the result for
    [major.minor rest] is the table's entry for [major.minor] when that
    is truthy, and the error "too old or too new" for [major.minor]
    otherwise.  ["1"] is read as ["1.0"]; whatever is returned is
    truthy; and the only errors are the two Electron errors. *)
Theorem electronVersionToChromeVersion_result (major minor rest : string) :
  all_digits major = true →
  all_digits minor = true →
  starts_with_digit rest = false →
  electronVersionToChromeVersion (VStr (major ++ "." ++ minor ++ rest))
  = (if truthy (get electronToChromium (major ++ "." ++ minor))
     then Ok (get electronToChromium (major ++ "." ++ minor))
     else Throw (ElectronTooOldOrNew (major ++ "." ++ minor))) ∧
  electronVersionToChromeVersion (VStr "1")
  = electronVersionToChromeVersion (VStr "1.0") ∧
  (∀ v chrome, electronVersionToChromeVersion v = Ok chrome →
     truthy chrome = true) ∧
  (∀ v err, electronVersionToChromeVersion v = Throw err →
     err = ElectronNotSemver ∨ ∃ version, err = ElectronTooOldOrNew version).
Proof.
  intros Hmajor Hminor Hrest. split; [|split; [reflexivity|split]].
  - unfold electronVersionToChromeVersion. cbn [ToString].
    assert (String.eqb (major ++ "." ++ minor ++ rest) "1" = false) as ->.
    { apply String.eqb_neq. apply all_digits_span in Hmajor as [_ Hne].
      destruct major as [|c [|c' major]]; [done|..]; intros Heq;
        discriminate Heq. }
    rewrite (match_major_minor_complete _ _ _ Hmajor Hminor Hrest).
    by destruct (truthy _).
  - intros v chrome Hc. by apply electronVersionToChromeVersion_Ok in Hc as [? _].
  - apply electronVersionToChromeVersion_Throw.
Qed.

(** X13: [transformIncludesAndExculdes] splits a list of names in two:
    every name is a plugin name or a built-in name and never both, each
    part keeps the order of the list, and nothing is lost or added. *)
Theorem transformIncludesAndExculdes_partition (opts : list string) :
  all (transformIncludesAndExculdes opts) = opts ∧
  (∀ x, x ∈ opts ↔
        x ∈ plugins (transformIncludesAndExculdes opts) ∨
        x ∈ builtIns (transformIncludesAndExculdes opts)) ∧
  (∀ x, x ∈ plugins (transformIncludesAndExculdes opts) →
        x ∈ builtIns (transformIncludesAndExculdes opts) → False) ∧
  plugins (transformIncludesAndExculdes opts) `sublist_of` opts ∧
  builtIns (transformIncludesAndExculdes opts) `sublist_of` opts ∧
  (length (plugins (transformIncludesAndExculdes opts))
   + length (builtIns (transformIncludesAndExculdes opts)) = length opts)%nat.
Proof.
  simpl. split; [done|].
  change (List.filter (λ opt, negb (match_builtIn opt)) opts)
    with (pluginNames opts).
  change (List.filter (λ opt, match_builtIn opt) opts)
    with (builtInNames opts).
  split; [|split; [|split; [|split]]].
  - intros x. rewrite elem_of_pluginNames, elem_of_builtInNames.
    destruct (match_builtIn x); split.
    + intros ?. by right.
    + by intros [[? ?]|[? ?]].
    + intros ?. by left.
    + by intros [[? ?]|[? ?]].
  - intros x [_ Hp]%elem_of_pluginNames [_ Hb]%elem_of_builtInNames.
    congruence.
  - unfold pluginNames. induction opts as [|o opts IH]; simpl; [constructor|].
    destruct (negb (match_builtIn o)); by constructor.
  - unfold builtInNames. induction opts as [|o opts IH]; simpl; [constructor|].
    destruct (match_builtIn o); by constructor.
  - unfold pluginNames, builtInNames.
    induction opts as [|o opts IH]; simpl; [done|].
    destruct (match_builtIn o); simpl; lia.
Qed.

End OverrideProperties.

(** ** Further properties of the preset builder *)

Lemma filterM_all_true {A} (f : A → result bool) (l : list A) :
  (∀ x, x ∈ l → f x = Ok true) → filterM f l = Ok l.
Proof.
  induction l as [|x l IH]; intros Hall; simpl; [done|].
  rewrite (Hall x) by (apply elem_of_cons; by left). simpl.
  rewrite IH; [done|]. intros y Hy. apply Hall, elem_of_cons. by right.
Qed.

Lemma filterM_sublist {A} (f : A → result bool) (l r : list A) :
  filterM f l = Ok r → r `sublist_of` l.
Proof.
  revert r. induction l as [|x l IH]; intros r; simpl.
  - intros [= <-]. constructor.
  - destruct (f x) as [b|]; [|done]. simpl.
    destruct (filterM f l) as [r'|]; [|done]. simpl. intros [= <-].
    destruct b; constructor; by apply IH.
Qed.

Lemma logPlugin_fold_lookup (envList : capability) (keys : list string)
    (a : gmap string (option number)) (k : string) :
  foldl (λ a b, <[b := envList !! b]> a) a keys !! k =
  if decide (k ∈ keys) then Some (envList !! k) else a !! k.
Proof.
  revert a. induction keys as [|key keys IH]; intros a; simpl.
  - by destruct (decide (k ∈ [])) as [?%elem_of_nil|].
  - rewrite IH. destruct (decide (k ∈ keys)) as [Hin|Hout].
    + rewrite decide_True; [done|]. apply elem_of_cons. by right.
    + destruct (decide (k = key)) as [->|Hne].
      * rewrite lookup_insert_eq, decide_True; [done|]. apply elem_of_cons. by left.
      * rewrite lookup_insert_ne by done. rewrite decide_False; [done|].
        by intros [?|?]%elem_of_cons.
Qed.

(** X20: the line that [logPlugin] prints for a name lists exactly the
    targeted environments, each with the entry of the name's capability
    for it, or with [undefined] when the capability has none or the
    table does not know the name. *)
Theorem logPlugin_filteredList (plugin : string) (targets : object)
    (list : list (string * capability)) :
  ∃ filteredList,
    logPlugin plugin targets list = LinePlugin plugin filteredList ∧
    ∀ k, filteredList !! k =
         if decide (is_Some (targets !! k))
         then Some (default ∅ (table_get list plugin) !! k)
         else None.
Proof.
  unfold logPlugin. eexists. split; [done|]. intros k.
  rewrite logPlugin_fold_lookup, lookup_empty.
  destruct (decide (is_Some (targets !! k))) as [Hk|Hk].
  - rewrite decide_True; [done|]. by apply elem_of_Object_keys.
  - rewrite decide_False; [done|]. by rewrite elem_of_Object_keys.
Qed.

Section BuilderProperties.
Context `{Host} `{Data}.
Context {Options : Type} (normalizeOptions : Options → result ValidatedOptions).

Lemma isPluginRequired_empty (C : capability) : isPluginRequired ∅ C = Ok true.
Proof. reflexivity. Qed.

Lemma requiredNames_empty (table : list (string * capability)) :
  requiredNames ∅ table = Ok table.*1.
Proof.
  unfold requiredNames. apply filterM_all_true. intros name _.
  apply isPluginRequired_empty.
Qed.

(** X14: with no targets ([undefined] or [{}]) the build cannot fail on
    the targets: every name of the plugin table and of the built-in
    table is required, and every plugin of the table that is not
    excluded has its unit in the result. *)
Theorem buildPreset_no_targets (opts : Options) (st : Session)
    (v : ValidatedOptions) :
  normalizeOptions opts = Ok v →
  targets v = None ∨ targets v = Some ∅ →
  requiredNames ∅ pluginList = Ok pluginList.*1 ∧
  requiredNames ∅ builtInsList = Ok builtInsList.*1 ∧
  ∃ units st',
    buildPreset normalizeOptions opts st = (Ok units, st') ∧
    ∀ name, name ∈ pluginList.*1 → name ∉ pluginNames (exclude v) →
      (require_babel_plugin name, Loose (loose v)) ∈ units.
Proof.
  intros Hv Hnone.
  split; [apply requiredNames_empty|]. split; [apply requiredNames_empty|].
  assert (getTargets (targets v) = Ok ∅) as HT
    by (destruct Hnone as [-> | ->]; reflexivity).
  rewrite buildPreset_unfold, Hv, HT, requiredNames_empty.
  assert ((if useBuiltIns v then requiredNames ∅ builtInsList else Ok [])
          = Ok (if useBuiltIns v then builtInsList.*1 else [])) as ->.
  { destruct (useBuiltIns v); [apply requiredNames_empty | done]. }
  eexists _, _. split; [done|]. intros name Hin Hex.
  apply elem_of_app. right. apply elem_of_app. left.
  unfold transformUnits. apply list_elem_of_fmap. exists name. split; [done|].
  unfold selectedTransformations. apply elem_of_app. left.
  by apply elem_of_filter_not_in.
Qed.

(** X15: the required names are the names of the table for which
    [isPluginRequired] answers [true], in the order of the table; when
    the selection fails, it fails with the error of [isPluginRequired]
    on one of the names. *)
Theorem requiredNames_in_table_order (T : object)
    (table : list (string * capability)) :
  (∀ names, requiredNames T table = Ok names →
     names `sublist_of` table.*1 ∧
     ∀ name, name ∈ names ↔
             name ∈ table.*1 ∧
             isPluginRequired T (default ∅ (table_get table name)) = Ok true) ∧
  (∀ err, requiredNames T table = Throw err →
     ∃ name, name ∈ table.*1 ∧
             isPluginRequired T (default ∅ (table_get table name)) = Throw err).
Proof.
  unfold requiredNames. split.
  - intros names Hn. split; [by eapply filterM_sublist|].
    by apply (filterM_Ok_inv _ _ _ Hn).
  - intros err Herr. by apply filterM_Throw_inv in Herr.
Qed.

(** X16: with [useBuiltIns], a name of the default-include list that is
    not excluded is in the polyfill list of the result, whatever the
    targets are. *)
Theorem buildPreset_default_includes (opts : Options) (st st' : Session)
    (units : list (plugin_module * plugin_options))
    (v : ValidatedOptions) (name : string) :
  normalizeOptions opts = Ok v →
  buildPreset normalizeOptions opts st = (Ok units, st') →
  useBuiltIns v = true →
  name ∈ defaultInclude →
  name ∉ builtInNames (exclude v) →
  ∃ polyfills regenerator,
    (transformPolyfillRequirePlugin, Polyfills (Some polyfills) regenerator)
    ∈ units ∧ name ∈ polyfills.
Proof.
  intros Hv Hbuild Hb Hin Hex.
  destruct (buildPreset_Ok_inv _ _ _ _ _ _ Hv Hbuild)
    as (T & transformations & required & _ & _ & _ & -> & _).
  eexists _, _. split.
  - apply elem_of_app. right. apply elem_of_app. right.
    unfold polyfillUnit. rewrite Hb. apply list_elem_of_singleton. reflexivity.
  - unfold selectedPolyfills. apply elem_of_app. left.
    apply elem_of_filter_not_in. split; [|done]. apply elem_of_app. by right.
Qed.

(** X17: a name that is excluded and not included is not selected: a
    built-in name is in no polyfill list of the result, and the unit of
    a plugin name can only be there as the module transform, which the
    exclude list does not reach. *)
Theorem buildPreset_excluded (opts : Options) (st st' : Session)
    (units : list (plugin_module * plugin_options))
    (v : ValidatedOptions) (x : string) :
  normalizeOptions opts = Ok v →
  buildPreset normalizeOptions opts st = (Ok units, st') →
  x ∈ exclude v →
  x ∉ include v →
  (match_builtIn x = false →
   ∀ options, (require_babel_plugin x, options) ∈ units →
     moduleType v ≫= (moduleTransformations !!.) = Some x) ∧
  (match_builtIn x = true →
   ∀ polyfills regenerator,
     (transformPolyfillRequirePlugin, Polyfills (Some polyfills) regenerator)
     ∈ units → x ∉ polyfills).
Proof.
  intros Hv Hbuild Hex Hin.
  destruct (buildPreset_Ok_inv _ _ _ _ _ _ Hv Hbuild)
    as (T & transformations & required & _ & _ & _ & -> & _).
  split.
  - intros Hp options [Hm|[Ht|Hu]%elem_of_app]%elem_of_app.
    + unfold modulePushed in Hm.
      destruct (moduleType v ≫= (moduleTransformations !!.)) as [name|];
        [|by apply elem_of_nil in Hm].
      destruct (negb (String.eqb name "")); [|by apply elem_of_nil in Hm].
      apply list_elem_of_singleton in Hm. by injection Hm as -> _.
    + unfold transformUnits in Ht.
      apply list_elem_of_fmap in Ht as (name & [= <- _] & Hsel).
      unfold selectedTransformations in Hsel.
      apply elem_of_app in Hsel as [[_ Hno]%elem_of_filter_not_in|Hinc].
      * exfalso. apply Hno. by apply elem_of_pluginNames.
      * apply elem_of_pluginNames in Hinc as [? _]. done.
    + unfold polyfillUnit in Hu.
      destruct (useBuiltIns v); [|by apply elem_of_nil in Hu].
      by apply list_elem_of_singleton in Hu.
  - intros Hp polyfills regenerator [Hm|[Ht|Hu]%elem_of_app]%elem_of_app.
    + unfold modulePushed in Hm.
      destruct (moduleType v ≫= (moduleTransformations !!.)) as [name|];
        [|by apply elem_of_nil in Hm].
      destruct (negb (String.eqb name "")); [|by apply elem_of_nil in Hm].
      by apply list_elem_of_singleton in Hm.
    + unfold transformUnits in Ht.
      by apply list_elem_of_fmap in Ht as (name & ? & _).
    + unfold polyfillUnit in Hu.
      destruct (useBuiltIns v); [|by apply elem_of_nil in Hu].
      apply list_elem_of_singleton in Hu. injection Hu as -> _.
      unfold selectedPolyfills.
      intros [[_ Hno]%elem_of_filter_not_in|Hinc]%elem_of_app.
      * apply Hno. by apply elem_of_builtInNames.
      * by apply elem_of_builtInNames in Hinc as [? _].
Qed.

(** X18: the debug output is printed once: after a successful build
    with [debug] the latch is set, and the same build run again returns
    the same list and leaves the session, console included, as it is. *)
Theorem buildPreset_logs_once (opts : Options) (st st1 : Session)
    (units : list (plugin_module * plugin_options)) (v : ValidatedOptions) :
  normalizeOptions opts = Ok v →
  debug v = true →
  buildPreset normalizeOptions opts st = (Ok units, st1) →
  hasBeenLogged st1 = true ∧
  buildPreset normalizeOptions opts st1 = (Ok units, st1).
Proof.
  intros Hv Hd Hbuild.
  destruct (buildPreset_Ok_inv _ _ _ _ _ _ Hv Hbuild)
    as (T & transformations & required & HT & Htr & Hreq & -> & ->).
  assert (hasBeenLogged
            (debugLog v T transformations
               (if useBuiltIns v then Some (selectedPolyfills v required)
                else None) st) = true) as Hl by (by apply debugLog_latches).
  split; [done|].
  rewrite buildPreset_unfold, Hv, HT, Htr.
  destruct (useBuiltIns v) eqn:Hb.
  - rewrite (Hreq eq_refl). by rewrite debugLog_latched.
  - rewrite debugLog_latched by done. unfold polyfillUnit. by rewrite Hb.
Qed.

(** X19: the session never changes the outcome: the list or the error
    is the same from every session; a build that fails leaves the
    session as it was; and so does every build once the latch is set. *)
Theorem buildPreset_session (opts : Options) (st st' : Session) :
  fst (buildPreset normalizeOptions opts st)
  = fst (buildPreset normalizeOptions opts st') ∧
  (∀ err st1, buildPreset normalizeOptions opts st = (Throw err, st1) →
     st1 = st) ∧
  (hasBeenLogged st = true → snd (buildPreset normalizeOptions opts st) = st).
Proof.
  rewrite !buildPreset_unfold.
  destruct (normalizeOptions opts) as [v|];
    [|split; [done|]; split; [by intros ? ? [= _ <-] | done]].
  destruct (getTargets (targets v)) as [T|];
    [|split; [done|]; split; [by intros ? ? [= _ <-] | done]].
  destruct (requiredNames T pluginList) as [transformations|];
    [|split; [done|]; split; [by intros ? ? [= _ <-] | done]].
  destruct (if useBuiltIns v then requiredNames T builtInsList else Ok [])
    as [required|];
    [|split; [done|]; split; [by intros ? ? [= _ <-] | done]].
  split; [done|]. split; [done|]. intros Hl. simpl. by apply debugLog_latched.
Qed.

End BuilderProperties.

(** ** Worked examples

    The theorems above at concrete inputs, and the inputs on which the
    specification's statements differ from the code.  They run on the
    sample host and data. *)

Section WorkedExamples.
#[local] Existing Instance Sample.host.
#[local] Existing Instance Sample.data.

(** [{ie: 8}] against a feature that [ie] has from version 9: required. *)
Lemma isPluginRequired_decision_witness :
  isPluginRequired {[ "ie" := VNum (of_Z 8) ]} {[ "ie" := of_Z 9 ]} = Ok true.
Proof.
  refine (proj2 (proj1 (proj2
    (isPluginRequired_decision
       {[ "ie" := VNum (of_Z 8) ]} {[ "ie" := of_Z 9 ]} _ _ _))) _).
  - reflexivity.
  - intros e v [<- <-]%lookup_singleton_Some. reflexivity.
  - intros e v c [<- <-]%lookup_singleton_Some [_ <-]%lookup_singleton_Some.
    reflexivity.
  - right. exists "ie", (VNum (of_Z 8)). split; [reflexivity|].
    right. exists (Own (of_Z 9)). split; reflexivity.
Defined.

(** An entry of 0 with a target of 50: every environment of the target
    has an entry in [C] that the target reaches, and the answer is
    [true].  A string target against a version does not give a boolean.
    And for an environment called [constructor] the entry has no
    version, yet the answer is [false]: the entry inherits a property of
    that name, which no number is below. *)
Lemma isPluginRequired_decision_counterexample :
  ({[ "chrome" := VNum (of_Z 50) ]} : object) !! "browsers" = None ∧
  (∀ e v, ({[ "chrome" := VNum (of_Z 50) ]} : object) !! e = Some v →
     ∃ c, ({[ "chrome" := of_Z 0 ]} : capability) !! e = Some c ∧
          js_ge v c = true) ∧
  isPluginRequired {[ "chrome" := VNum (of_Z 50) ]} {[ "chrome" := of_Z 0 ]}
  = Ok true ∧
  isPluginRequired {[ "chrome" := VStr "50" ]} {[ "chrome" := of_Z 51 ]}
  = Throw (TargetVersionNotNumber "50" "chrome") ∧
  ({[ "chrome" := of_Z 50 ]} : capability) !! "constructor" = None ∧
  isPluginRequired {[ "constructor" := VNum (of_Z 5) ]} {[ "chrome" := of_Z 50 ]}
  = Ok false.
Proof.
  split; [reflexivity|]. split; [|repeat split; vm_compute; reflexivity].
  intros e v [<- <-]%lookup_singleton_Some.
  exists (of_Z 0). split; reflexivity.
Qed.

(** [{node: "6.5"}] against a feature that [node] has from version 6. *)
Lemma isPluginRequired_string_error_witness :
  ∃ s' e',
    isPluginRequired {[ "node" := VStr "6.5" ]} {[ "node" := of_Z 6 ]}
    = Throw (TargetVersionNotNumber s' e').
Proof.
  refine (proj2
    (isPluginRequired_string_error
       {[ "node" := VStr "6.5" ]} {[ "node" := of_Z 6 ]} _)
    "node" "6.5" (Own (of_Z 6)) _ _ _); reflexivity.
Defined.

(** A string version for an environment that the capability entry does
    not mention: no error, unless the entry inherits a property of that
    name. *)
Lemma isPluginRequired_string_error_counterexample :
  ({[ "chrome" := VStr "50" ]} : object) !! "chrome" = Some (VStr "50") ∧
  isPluginRequired {[ "chrome" := VStr "50" ]} ∅ = Ok true ∧
  isPluginRequired {[ "constructor" := VStr "5" ]} ∅
  = Throw (TargetVersionNotNumber "5" "constructor").
Proof. repeat split; vm_compute; reflexivity. Qed.

(** A zero entry decides, even for a string target. *)
Lemma isPluginRequired_zero_entry_witness :
  isPluginRequired {[ "chrome" := VStr "50" ]} {[ "chrome" := of_Z 0 ]}
  = Ok true.
Proof.
  apply (isPluginRequired_zero_entry
           {[ "chrome" := VStr "50" ]} {[ "chrome" := of_Z 0 ]}
           "chrome" (VStr "50") (of_Z 0)); try reflexivity.
  intros e' s p [<- _]%lookup_singleton_Some Hp.
  vm_compute in Hp. injection Hp as <-. reflexivity.
Defined.

(** A zero entry for [chrome] does not help when [node] is a string that
    meets a version, or [constructor] a string that meets the inherited
    property. *)
Lemma isPluginRequired_zero_entry_counterexample :
  (<["node" := VStr "6"]> {[ "chrome" := VNum (of_Z 50) ]} : object)
    !! "browsers" = None ∧
  (<["node" := VStr "6"]> {[ "chrome" := VNum (of_Z 50) ]} : object)
    !! "chrome" = Some (VNum (of_Z 50)) ∧
  (<["node" := of_Z 4]> {[ "chrome" := of_Z 0 ]} : capability)
    !! "chrome" = Some (of_Z 0) ∧
  isPluginRequired
    (<["node" := VStr "6"]> {[ "chrome" := VNum (of_Z 50) ]})
    (<["node" := of_Z 4]> {[ "chrome" := of_Z 0 ]})
  = Throw (TargetVersionNotNumber "6" "node") ∧
  isPluginRequired
    (<["constructor" := VStr "5"]> {[ "chrome" := VNum (of_Z 50) ]})
    {[ "chrome" := of_Z 0 ]}
  = Throw (TargetVersionNotNumber "5" "constructor").
Proof. repeat split; vm_compute; reflexivity. Qed.

(** [{electron: "1"}] with the sample table, where ["1.0"] is 49. *)
Lemma getTargets_electron_witness :
  getTargets (Some {[ "electron" := VStr "1" ]})
  = Ok {[ "chrome" := VNum (of_Z 49) ]}.
Proof.
  refine (proj1 (proj2 (proj2 (proj2 (proj2
    (getTargets_electron {[ "electron" := VStr "1" ]} (VStr "1") _ _)))))
    (VNum (of_Z 49)) _ _); reflexivity.
Defined.




(** [{electron: "1.0", node: 6}], a well-formed map. *)
Lemma getTargets_result_shape_witness :
  (<["node" := VNum (of_Z 6)]> {[ "chrome" := VNum (of_Z 49) ]} : object)
    !! "electron" = None ∧
  (<["node" := VNum (of_Z 6)]> {[ "chrome" := VNum (of_Z 49) ]} : object)
    !! "browsers" = None ∧
  ∀ k v,
    (<["node" := VNum (of_Z 6)]> {[ "chrome" := VNum (of_Z 49) ]} : object)
      !! k = Some v →
    typeof_number v = true.
Proof.
  refine (proj2 (proj2
    (getTargets_result_shape
       (<["node" := VNum (of_Z 6)]> {[ "electron" := VStr "1.0" ]})
       (<["node" := VNum (of_Z 6)]> {[ "chrome" := VNum (of_Z 49) ]}) _))
    _ _ _ _).
  - vm_compute. reflexivity.
  - refine (bool_decide_unpack
      (map_Forall (λ (k : string) (v : value),
         k ≠ "electron" → k ≠ "browsers" →
         typeof_number v = true ∨
         k = "node" ∧
         strict_eq_true v || strict_eq_string v "current" = true)
        (<["node" := VNum (of_Z 6)]> {[ "electron" := VStr "1.0" ]})) _).
    vm_compute. exact I.
  - intros v Hv. vm_compute in Hv. injection Hv as <-. reflexivity.
  - intros v Hv. vm_compute in Hv. discriminate Hv.
  - refine (bool_decide_unpack
      (map_Forall (λ (_ : string) (c : value), typeof_number c = true)
        electronToChromium) _).
    vm_compute. exact I.
Defined.

(** A string value comes back as a string; a falsy [electron] and a
    [browsers] that is no query stay in the map. *)
Lemma getTargets_result_shape_counterexample :
  getTargets (Some {[ "chrome" := VStr "50" ]}) = Ok {[ "chrome" := VStr "50" ]} ∧
  getTargets (Some {[ "electron" := VNum (of_Z 0) ]})
  = Ok {[ "electron" := VNum (of_Z 0) ]} ∧
  getTargets (Some {[ "browsers" := VNum (of_Z 5) ]})
  = Ok {[ "browsers" := VNum (of_Z 5) ]}.
Proof. repeat split; vm_compute; reflexivity. Qed.

(** The releases of the specification's example. *)
Lemma getLowestVersions_minimum_witness :
  ∃ lowest,
    getLowestVersions ["chrome 50"; "chrome 60"; "ie 8"] !! "chrome"
    = Some lowest ∧
    ∀ browser version,
      browser ∈ ["chrome 50"; "chrome 60"; "ie 8"] →
      kept browser "chrome" version → number_ge version lowest = true.
Proof.
  assert (∀ browser, browser ∈ ["chrome 50"; "chrome 60"; "ie 8"] →
            browser_named browser) as Hnamed.
  { intros b Hb raw.
    repeat (apply elem_of_cons in Hb as [->|Hb];
            [by intros [= <-]|]).
    by apply elem_of_nil in Hb. }
  assert (∀ browser name version,
            browser ∈ ["chrome 50"; "chrome 60"; "ie 8"] →
            kept browser name version → number_truthy version = true)
    as Hnz.
  { intros b n v Hb (raw & _ & _ & -> & _).
    repeat (apply elem_of_cons in Hb as [->|Hb]; [reflexivity|]).
    by apply elem_of_nil in Hb. }
  pose proof (proj1 (getLowestVersions_minimum _ Hnamed Hnz) "chrome") as Hc.
  change (getLowestVersions ["chrome 50"; "chrome 60"; "ie 8"] !! "chrome")
    with (Some (of_Z 50)) in Hc.
  exists (of_Z 50). split; [reflexivity | exact (proj2 Hc)].
Defined.

(** What the resolver does not list.  A release of version 0 is
    forgotten when a later one arrives; a release called like an
    inherited property is filed under the text of that property; and
    a version of 400 digits is an infinity. *)
Example getLowestVersions_odd_releases :
  getLowestVersions ["chrome 0"; "chrome 5"] = {[ "chrome" := of_Z 5 ]} ∧
  getLowestVersions ["constructor 5"]
  = {[ "function Object() { [native code] }" := of_Z 5 ]} ∧
  to_double (10 ^ 400) = PosInf ∧
  parseInt "9007199254740993" = of_Z 9007199254740992.
Proof. repeat split; vm_compute; reflexivity. Qed.

(** The sample options: [chrome 51], the CommonJS module transform, and
    names that are both included and excluded. *)
Lemma buildPreset_order_witness :
  ∃ st',
    buildPreset Sample.normalizeOptions options51 freshSession
    = (Ok units51, st').
Proof.
  destruct (buildPreset_order Sample.normalizeOptions options51 freshSession
              options51 {[ "chrome" := VNum (of_Z 51) ]}
              ["transform-exponentiation-operator"] ["es7.string.pad-start"])
    as [[st' Hst'] _].
  - reflexivity.
  - vm_compute. reflexivity.
  - vm_compute. reflexivity.
  - intros _. vm_compute. reflexivity.
  - refine (bool_decide_unpack
      (map_Forall (λ (_ : string) (name : string), name ≠ "")
        moduleTransformations) _).
    vm_compute. exact I.
  - exists st'. rewrite Hst'. vm_compute. reflexivity.
Defined.

(** The options for Chrome 49: ["transform-regenerator"] is required
    and excluded, and its unit is there, after the unit of the plugin
    that the exclude list lets through. *)
Lemma include_wins_witness :
  ∃ T transformations,
    getTargets (targets options49) = Ok T ∧
    requiredNames T pluginList = Ok transformations ∧
    "transform-regenerator" ∈ transformations ∧
    (require_babel_plugin "transform-regenerator", Loose false) ∈ units51.
Proof.
  destruct (include_wins Sample.normalizeOptions options49 freshSession
              (snd (buildPreset Sample.normalizeOptions options49 freshSession))
              units51 options49 "transform-regenerator")
    as (T & transformations & required & passed & passedBuiltIns
        & HT & Htr & _ & _ & _ & _ & Hplugin & _).
  - reflexivity.
  - vm_compute. reflexivity.
  - apply elem_of_cons. by left.
  - apply elem_of_cons. by left.
  - exists T, transformations. split; [done|]. split; [done|].
    split; [|by apply Hplugin].
    vm_compute in HT. injection HT as <-.
    vm_compute in Htr. injection Htr as <-.
    apply elem_of_cons. by left.
Defined.

End WorkedExamples.

(** ** The further properties on examples *)

Section FurtherExamples.
#[local] Existing Instance Sample.host.
#[local] Existing Instance Sample.data.

(** The result of [{browsers: "chrome 50", node: 10}], normalized again. *)
Lemma getTargets_idempotent_witness :
  getTargets
    (Some (<["node" := VNum (of_Z 10)]> {[ "chrome" := VNum (of_Z 50) ]}))
  = Ok (<["node" := VNum (of_Z 10)]> {[ "chrome" := VNum (of_Z 50) ]}).
Proof.
  apply (getTargets_idempotent
           (<["node" := VNum (of_Z 10)]> {[ "browsers" := VStr "chrome 50" ]})).
  vm_compute. reflexivity.
Defined.

(** [{node: true}] on a node 7.4.0. *)
Lemma getTargets_node_current_witness :
  ({[ "node" := VNum (Fin (74 # 10)) ]} : object) !! "node"
  = Some (VNum (@getCurrentNodeVersion host_node7)).
Proof.
  apply (@getTargets_node_current host_node7 Sample.data
           {[ "node" := VBool true ]}).
  - reflexivity.
  - vm_compute. reflexivity.
Defined.

(** [{electron: "0.1", browsers: "chrome 50"}]: the table has no
    ["0.1"]. *)
Lemma getTargets_failure_witness :
  getTargets
    (Some (<["electron" := VStr "0.1"]> {[ "browsers" := VStr "chrome 50" ]}))
  = Throw (ElectronTooOldOrNew "0.1").
Proof.
  refine (proj1
    (getTargets_failure
       (<["electron" := VStr "0.1"]> {[ "browsers" := VStr "chrome 50" ]})
       (VStr "0.1") (ElectronTooOldOrNew "0.1") _ _ _)); reflexivity.
Defined.


Lemma getLowestVersions_permutation_witness :
  getLowestVersions ["chrome 60"; "chrome 50"]
  = getLowestVersions ["chrome 50"; "chrome 60"].
Proof.
  apply getLowestVersions_permutation.
  - apply perm_swap.
  - intros b n v Hb (raw & _ & _ & -> & _).
    repeat (apply elem_of_cons in Hb as [->|Hb]; [reflexivity|]).
    by apply elem_of_nil in Hb.
Defined.

(** [{browsers: "chrome 50"}] against a feature that Chrome has from 51. *)
Lemma isPluginRequired_normalizes_first_witness :
  isPluginRequired {[ "browsers" := VStr "chrome 50" ]} {[ "chrome" := of_Z 51 ]}
  = isPluginRequired {[ "chrome" := VNum (of_Z 50) ]} {[ "chrome" := of_Z 51 ]}.
Proof.
  rewrite (isPluginRequired_normalizes_first
             {[ "browsers" := VStr "chrome 50" ]} {[ "chrome" := of_Z 51 ]})
    by (vm_compute; reflexivity).
  vm_compute. reflexivity.
Defined.

(** [{uglify: true}]: no capability entry mentions [uglify]. *)
Lemma isPluginRequired_unknown_environment_witness :
  isPluginRequired {[ "uglify" := VBool true ]} {[ "chrome" := of_Z 50 ]}
  = Ok true.
Proof.
  apply (isPluginRequired_unknown_environment
           {[ "uglify" := VBool true ]} {[ "chrome" := of_Z 50 ]}
           "uglify" (VBool true)); try reflexivity.
  intros e' s p [_ [=]]%lookup_singleton_Some.
Defined.

(** [{ie: 8}] and the larger [{ie: 8, chrome: 60}]. *)
Lemma isPluginRequired_more_targets_witness :
  isPluginRequired
    (<["chrome" := VNum (of_Z 60)]> {[ "ie" := VNum (of_Z 8) ]})
    (<["chrome" := of_Z 50]> {[ "ie" := of_Z 9 ]})
  = Ok true.
Proof.
  apply (isPluginRequired_more_targets {[ "ie" := VNum (of_Z 8) ]}).
  - apply insert_subseteq. reflexivity.
  - intros Heq. apply (f_equal (λ m : object, m !! "ie")) in Heq.
    vm_compute in Heq. discriminate Heq.
  - reflexivity.
  - refine (bool_decide_unpack
      (map_Forall (λ (_ : string) (v : value), typeof_string v = false)
        (<["chrome" := VNum (of_Z 60)]> {[ "ie" := VNum (of_Z 8) ]})) _).
    vm_compute. exact I.
  - vm_compute. reflexivity.
Defined.

(** A target at exactly the implementing version. *)
Lemma isPluginRequired_single_target_witness :
  isPluginRequired {[ "chrome" := VNum (of_Z 50) ]} {[ "chrome" := of_Z 50 ]}
  = Ok false.
Proof.
  apply (isPluginRequired_single_target "chrome" (of_Z 50) (of_Z 50)
           {[ "chrome" := of_Z 50 ]}); [done | reflexivity..].
Defined.

(** ["1.3.7"] is translated as ["1.3"]. *)
Lemma electronVersionToChromeVersion_result_witness :
  electronVersionToChromeVersion (VStr "1.3.7") = Ok (VNum (of_Z 52)).
Proof.
  exact (proj1
    (electronVersionToChromeVersion_result "1" "3" ".7"
       eq_refl eq_refl eq_refl)).
Defined.

Lemma buildPreset_no_targets_witness :
  ∃ units st',
    buildPreset Sample.normalizeOptions optionsNoTargets freshSession
    = (Ok units, st') ∧
    ∀ name, name ∈ pluginList.*1 →
      name ∉ pluginNames (exclude optionsNoTargets) →
      (require_babel_plugin name, Loose (loose optionsNoTargets)) ∈ units.
Proof.
  refine (proj2 (proj2
    (buildPreset_no_targets Sample.normalizeOptions optionsNoTargets
       freshSession optionsNoTargets _ _))).
  - reflexivity.
  - left. reflexivity.
Defined.

Lemma buildPreset_default_includes_witness :
  ∃ polyfills regenerator,
    (transformPolyfillRequirePlugin, Polyfills (Some polyfills) regenerator)
    ∈ units51 ∧ "web.immediate" ∈ polyfills.
Proof.
  apply (buildPreset_default_includes Sample.normalizeOptions options51
           freshSession
           (snd (buildPreset Sample.normalizeOptions options51 freshSession))
           units51 options51 "web.immediate").
  - reflexivity.
  - vm_compute. reflexivity.
  - reflexivity.
  - apply elem_of_cons. right. apply elem_of_cons. by left.
  - refine (bool_decide_unpack _ _). vm_compute. exact I.
Defined.

(** [web.timers] is excluded and not included. *)
Lemma buildPreset_excluded_witness :
  (match_builtIn "web.timers" = false →
   ∀ options, (require_babel_plugin "web.timers", options) ∈ units51 →
     moduleType options51 ≫= (moduleTransformations !!.) = Some "web.timers") ∧
  (match_builtIn "web.timers" = true →
   ∀ polyfills regenerator,
     (transformPolyfillRequirePlugin, Polyfills (Some polyfills) regenerator)
     ∈ units51 → "web.timers" ∉ polyfills).
Proof.
  apply (buildPreset_excluded Sample.normalizeOptions options51 freshSession
           (snd (buildPreset Sample.normalizeOptions options51 freshSession))
           units51 options51 "web.timers").
  - reflexivity.
  - vm_compute. reflexivity.
  - apply elem_of_cons. right. apply elem_of_cons. right.
    apply elem_of_cons. by left.
  - refine (bool_decide_unpack _ _). vm_compute. exact I.
Defined.

(** The sample build, run twice. *)
Lemma buildPreset_logs_once_witness :
  hasBeenLogged
    (snd (buildPreset Sample.normalizeOptions options51 freshSession)) = true ∧
  buildPreset Sample.normalizeOptions options51
    (snd (buildPreset Sample.normalizeOptions options51 freshSession))
  = (Ok units51,
     snd (buildPreset Sample.normalizeOptions options51 freshSession)).
Proof.
  apply (buildPreset_logs_once Sample.normalizeOptions options51 freshSession
           (snd (buildPreset Sample.normalizeOptions options51 freshSession))
           units51 options51).
  - reflexivity.
  - reflexivity.
  - vm_compute. reflexivity.
Defined.

End FurtherExamples.
